(** * The VPN server of skywire: handshake, per-connection provisioning and
      the one-time global network bracket ([internal/vpn/server.go]).

    The server code is embedded as state-passing programs over a [World]
    that holds the shared address pool and the trace of every externally
    visible action (system calls, reads and writes on the connection, pool
    calls, log lines, spawned tasks).  Declarations of package [vpn] that
    [server.go] uses but that live in other files of the package (the
    address pool, the octet splitter, the status constants, the TUN
    constants) are Section variables: every result holds for whatever they
    are. *)

From Stdlib Require Import ZArith List String Bool Lia.
Import ListNotations.

Local Open Scope string_scope.
Local Open Scope list_scope.
Local Open Scope Z_scope.

(** ** Data as the Go code has it *)

(** [net.IP] is a byte slice; each byte is a [Z] in [0, 256). *)
Definition IP : Type := list Z.

(** [uint8] arithmetic wraps around. *)
Definition uint8_add (x k : Z) : Z := (x + k) mod 256.

Definition v4InV6Prefix : list Z := [0; 0; 0; 0; 0; 0; 0; 0; 0; 0; 255; 255]%Z.

(** [net.IPv4(a, b, c, d)]: the 16-byte form of the address a.b.c.d. *)
Definition net_IPv4 (a b c d : Z) : IP := v4InV6Prefix ++ [a; b; c; d].

(** [ip.To4()]: the 4-byte form of an IPv4 address, or nil. *)
Definition IP_To4 (ip : IP) : option (Z * Z * Z * Z) :=
  match ip with
  | [a; b; c; d] => Some (a, b, c, d)
  | [0; 0; 0; 0; 0; 0; 0; 0; 0; 0; 255; 255; a; b; c; d]%Z => Some (a, b, c, d)
  | _ => None
  end.

(** The address a.b.c.d as a 32-bit number. *)
Definition octetsToZ (o : Z * Z * Z * Z) : Z :=
  let '(a, b, c, d) := o in ((a * 256 + b) * 256 + c) * 256 + d.

(** Go [error] values: [errors.New] and [fmt.Errorf] with its arguments
    kept unrendered. *)
Inductive error : Type :=
| errors_New (text : string)
| fmt_Errorf (format : string) (args : list fmtArg)
with fmtArg : Type :=
| ArgStr (s : string)
| ArgIP (ip : IP)
| ArgErr (e : error).

(** [HandshakeStatus] is an integer type; its zero value is 0. *)
Definition HandshakeStatus : Type := Z.
Definition HandshakeStatus_zero : HandshakeStatus := 0%Z.

Record ClientHello : Type := mkClientHello {
  Passcode : string;
  UnavailablePrivateIPs : list IP
}.

Record ServerHello : Type := mkServerHello {
  Status : HandshakeStatus;
  TUNIP : IP;
  TUNGateway : IP
}.

(** [var sHello ServerHello]: every field has its zero value. *)
Definition ServerHello_zero : ServerHello :=
  {| Status := HandshakeStatus_zero; TUNIP := []; TUNGateway := [] |}.

Definition set_Status (h : ServerHello) (st : HandshakeStatus) : ServerHello :=
  {| Status := st; TUNIP := TUNIP h; TUNGateway := TUNGateway h |}.
Definition set_TUNIP (h : ServerHello) (ip : IP) : ServerHello :=
  {| Status := Status h; TUNIP := ip; TUNGateway := TUNGateway h |}.
Definition set_TUNGateway (h : ServerHello) (ip : IP) : ServerHello :=
  {| Status := Status h; TUNIP := TUNIP h; TUNGateway := ip |}.

Record ServerConfig : Type := mkServerConfig {
  cfg_Passcode : string
}.

(** A client connection, seen from the server: what decoding the peer's
    hello yields, and whether encoding a given hello onto it succeeds. *)
Record Conn : Type := mkConn {
  RemoteAddr : string;
  conn_hello : error + ClientHello;
  conn_send : ServerHello -> option error
}.

(** A listener that accepts [lis_conns] one after the other and then fails
    with [lis_err] (for instance because it was closed). *)
Record Listener : Type := mkListener {
  lis_conns : list Conn;
  lis_err : error
}.

(** ** Externally visible actions *)

Inductive LogLevel : Type := Debug | Info | Error.

(** Calls into the operating system that return only an [error]. *)
Inductive Syscall : Type :=
| EnableIPv4Forwarding
| EnableIPv6Forwarding
| SetIPv4ForwardingValue (v : string)
| SetIPv6ForwardingValue (v : string)
| EnableIPMasquerading (ifc : string)
| DisableIPMasquerading (ifc : string)
| ReleaseSysPrivileges (suid : Z)
| SetupTUN (name : string) (ip : IP) (mask : string) (gw : IP) (mtu : Z)
| TUN_Close (name : string)
| Conn_Close (remote : string).

Inductive Endpoint : Type := EpTUN (name : string) | EpConn (remote : string).

Inductive Event : Type :=
| EvSys (c : Syscall) (r : option error)
| EvSetupSysPrivileges (r : error + Z)
| EvNewTUNDevice (r : error + string)
| EvReadJSON (remote : string) (r : error + ClientHello)
| EvWriteJSON (remote : string) (h : ServerHello) (r : option error)
| EvReserve (ip : IP) (r : option error)
| EvNext (r : error + IP)
| EvAccept (r : error + Conn)
| EvGoServeConn (c : Conn)
| EvGoCopy (dst src : Endpoint)
| EvSelect
| EvLog (lvl : LogLevel) (msg : string) (err : option error).

(** The operating system: the outcome of a call may depend on everything
    that happened before it. *)
Record OS : Type := mkOS {
  os_sys : list Event -> Syscall -> option error;
  os_setupSysPrivileges : list Event -> error + Z;
  os_newTUNDevice : list Event -> error + string
}.

(** The world a server runs in: the state of the address pool shared by all
    connections, and everything that has happened so far, oldest first. *)
Record World (G : Type) : Type := mkWorld {
  ipGen : G;
  trace : list Event
}.

Arguments mkWorld {G} _ _.
Arguments ipGen {G} _.
Arguments trace {G} _.

(** ** Projections of a trace *)

(** The events of [t] that [f] selects, oldest first. *)
Fixpoint pick {A : Type} (f : Event -> option A) (t : list Event) : list A :=
  match t with
  | [] => []
  | e :: t' =>
      match f e with
      | Some a => a :: pick f t'
      | None => pick f t'
      end
  end.

(** The hellos handed to [WriteJSON], with the outcome of each write. *)
Definition sendResults : list Event -> list (ServerHello * option error) :=
  pick (fun e => match e with EvWriteJSON _ h r => Some (h, r) | _ => None end).

Definition sentHellos (t : list Event) : list ServerHello :=
  map fst (sendResults t).

(** The calls made on the address pool. *)
Definition poolCalls : list Event -> list Event :=
  pick (fun e => match e with EvReserve _ _ | EvNext _ => Some e | _ => None end).

(** The outcomes of the calls to [Next]. *)
Definition nextCalls : list Event -> list (error + IP) :=
  pick (fun e => match e with EvNext r => Some r | _ => None end).

(** The calls to [Reserve] that failed. *)
Definition reserveFailures : list Event -> list (IP * error) :=
  pick (fun e => match e with EvReserve ip (Some err) => Some (ip, err) | _ => None end).

(** The calls that switch forwarding and masquerading on, and the calls
    that put the host back, each with its outcome. *)
Definition enableCalls : list Event -> list (Syscall * option error) :=
  pick (fun e =>
    match e with
    | EvSys EnableIPv4Forwarding r => Some (EnableIPv4Forwarding, r)
    | EvSys EnableIPv6Forwarding r => Some (EnableIPv6Forwarding, r)
    | EvSys (EnableIPMasquerading i) r => Some (EnableIPMasquerading i, r)
    | _ => None
    end).

Definition restoreCalls : list Event -> list (Syscall * option error) :=
  pick (fun e =>
    match e with
    | EvSys (SetIPv4ForwardingValue v) r => Some (SetIPv4ForwardingValue v, r)
    | EvSys (SetIPv6ForwardingValue v) r => Some (SetIPv6ForwardingValue v, r)
    | EvSys (DisableIPMasquerading i) r => Some (DisableIPMasquerading i, r)
    | _ => None
    end).

(** Modelled from the spec: the privilege bracket, whose functions are not
    among the sources, is an acquire/release pair: privileges are held from
    a successful [setupSysPrivileges] to the next successful
    [releaseSysPrivileges]. *)
Definition privStep (held : bool) (e : Event) : bool :=
  match e with
  | EvSetupSysPrivileges (inr _) => true
  | EvSys (ReleaseSysPrivileges _) None => false
  | _ => held
  end.

(** For every relay task of a trace, whether privileges were held when it
    was started; [held] tells whether they are at the start of the trace. *)
Fixpoint relayPrivileges (held : bool) (t : list Event) : list bool :=
  match t with
  | [] => []
  | EvGoCopy _ _ :: t' => held :: relayPrivileges held t'
  | e :: t' => relayPrivileges (privStep held e) t'
  end.

(** [type Server struct]: [ipGen] points to the pool shared by all
    connections and lives in the [World]; [serveOnce] is the done flag of
    the [sync.Once]; [log] shows up as [EvLog] events. *)
Record Server : Type := mkServer {
  cfg : ServerConfig;
  lis : option Listener;
  serveOnce : bool;
  defaultNetworkInterface : string;
  ipv4ForwardingVal : string;
  ipv6ForwardingVal : string
}.

(** ** Instances of the declarations that are not in [server.go]

    They are used only to run the server on concrete inputs; the theorems
    below quantify over every pool, splitter and constant. *)

Module SpecPool.

(** Modelled from the spec: the address pool ([IPGenerator], whose file is
    not among the sources).  One private /16 (192.168.0.0/16) split into
    /29 blocks, a cursor over the blocks and the set of reserved blocks;
    [Reserve] marks the block of an address and fails on an address that
    is not IPv4; [Next] hands out the next unreserved block after the
    cursor and fails once none remains. *)
Record t : Type := mk {
  cursor : Z;
  reserved : list Z
}.

(** Modelled from the spec: a /16 holds 8192 blocks of 8 addresses. *)
Definition capacity : Z := 8192.

(** Modelled from the spec: a new pool, nothing handed out or reserved. *)
Definition fresh : t := {| cursor := 0; reserved := [] |}.

(** Modelled from the spec: a pool in which no block remains. *)
Definition exhausted : t := {| cursor := capacity; reserved := [] |}.

(** Modelled from the spec: the index of the block that holds an address
    of the pool, and the base address of the block with index [k]. *)
Definition blockOf (o : Z * Z * Z * Z) : option Z :=
  let '(a, b, c, d) := o in
  if (a =? 192) && (b =? 168) then Some (c * 32 + d / 8) else None.

(** Modelled from the spec: the base address of block [k] of the /16. *)
Definition base (k : Z) : IP := net_IPv4 192 168 (k / 32) ((k mod 32) * 8).

(** Modelled from the spec: [Reserve(ip)] marks the block containing [ip]
    as unavailable, is a no-op on a block already reserved and fails with
    MalformedAddress when [ip] is not an IPv4 address. *)
Definition Reserve (p : t) (ip : IP) : t * option error :=
  match IP_To4 ip with
  | None => (p, Some (errors_New "MalformedAddress"))
  | Some o =>
      match blockOf o with
      | Some k =>
          if existsb (Z.eqb k) (reserved p) then (p, None)
          else ({| cursor := cursor p; reserved := k :: reserved p |}, None)
      | None => (p, None)
      end
  end.

(** Modelled from the spec: the first unreserved block from the cursor on,
    looking at no more than [fuel] blocks. *)
Fixpoint scan (fuel : nat) (k : Z) (res : list Z) : option Z :=
  match fuel with
  | O => None
  | S fuel' => if existsb (Z.eqb k) res then scan fuel' (k + 1) res else Some k
  end.

(** Modelled from the spec: [Next()] returns the next unreserved block that
    was not handed out yet and moves the cursor past it, without wrapping
    around; it fails with PoolExhausted when no block remains. *)
Definition Next (p : t) : t * (error + IP) :=
  match scan (Z.to_nat (capacity - cursor p)) (cursor p) (reserved p) with
  | Some k => ({| cursor := k + 1; reserved := reserved p |}, inr (base k))
  | None => (p, inl (errors_New "PoolExhausted"))
  end.

End SpecPool.

(** Modelled from the spec: the octet splitter [fetchIPv4Octets] (not among
    the sources) yields the four octets of an IPv4 address and fails on any
    other slice. *)
Definition specFetchIPv4Octets (ip : IP) : error + (Z * Z * Z * Z) :=
  match IP_To4 ip with
  | Some o => inr o
  | None => inl (errors_New "address is not IPv4")
  end.

(** Modelled from the spec: the status enumeration {OK, Forbidden,
    BadRequest, NoFreeIPs, InternalError}, numbered in that order. *)
Definition specStatusOK : HandshakeStatus := 0.
(** Modelled from the spec: Forbidden, second of the enumeration. *)
Definition specStatusForbidden : HandshakeStatus := 1.
(** Modelled from the spec: BadRequest, third of the enumeration. *)
Definition specStatusBadRequest : HandshakeStatus := 2.
(** Modelled from the spec: NoFreeIPs, fourth of the enumeration. *)
Definition specNoFreeIPs : HandshakeStatus := 3.
(** Modelled from the spec: InternalError, fifth of the enumeration. *)
Definition specStatusInternalError : HandshakeStatus := 4.

(** An operating system on which every call succeeds. *)
Definition osAllFine : OS :=
  {| os_sys := fun _ _ => None;
     os_setupSysPrivileges := fun _ => inr 1000;
     os_newTUNDevice := fun _ => inr "tun0" |}.

(** An operating system on which every restoring call fails. *)
Definition osRestoreFails : OS :=
  {| os_sys := fun _ c =>
       match c with
       | SetIPv4ForwardingValue _ | SetIPv6ForwardingValue _
       | DisableIPMasquerading _ => Some (errors_New "operation not permitted")
       | _ => None
       end;
     os_setupSysPrivileges := fun _ => inr 1000;
     os_newTUNDevice := fun _ => inr "tun0" |}.

(** Clients. *)
Definition helloPlain : ClientHello :=
  {| Passcode := ""; UnavailablePrivateIPs := [] |}.

Definition helloBadIP : ClientHello :=
  {| Passcode := ""; UnavailablePrivateIPs := [[192; 168; 0; 1]; [1; 2; 3]] |}.

Definition connOf (h : ClientHello) : Conn :=
  {| RemoteAddr := "client"; conn_hello := inr h; conn_send := fun _ => None |}.

Definition connGarbage : Conn :=
  {| RemoteAddr := "client";
     conn_hello := inl (errors_New "unexpected EOF");
     conn_send := fun _ => None |}.

(** A client that vanishes after sending its hello. *)
Definition connGone (h : ClientHello) : Conn :=
  {| RemoteAddr := "client"; conn_hello := inr h;
     conn_send := fun _ => Some (errors_New "broken pipe") |}.

Definition lisTwo : Listener :=
  {| lis_conns := [connOf helloPlain; connGarbage];
     lis_err := errors_New "use of closed network connection" |}.

(** A pool that hands out the single base 10.0.0.252 over and over. *)
Definition oddPoolNext (g : unit) : unit * (error + IP) :=
  (g, inr (net_IPv4 10 0 0 252)).

Definition oddPoolReserve (g : unit) (ip : IP) : unit * option error :=
  (g, None).

Definition specWorld : World SpecPool.t := mkWorld SpecPool.fresh [].

Definition oddWorld : World unit := mkWorld tt [].

Definition serverOf (pass : string) : Server :=
  {| cfg := {| cfg_Passcode := pass |};
     lis := None;
     serveOnce := false;
     defaultNetworkInterface := "eth0";
     ipv4ForwardingVal := "0";
     ipv6ForwardingVal := "0" |}.

(** What the host answers to the three read-only queries of [NewServer]:
    [DefaultNetworkInterface], [GetIPv4ForwardingValue] and
    [GetIPv6ForwardingValue]. *)
Record Host : Type := mkHost {
  host_defaultNetworkInterface : error + string;
  host_ipv4ForwardingValue : error + string;
  host_ipv6ForwardingValue : error + string
}.

(** A host that forwards IPv4 but not IPv6 and routes through wlan0. *)
Definition hostFine : Host :=
  {| host_defaultNetworkInterface := inr "wlan0";
     host_ipv4ForwardingValue := inr "1";
     host_ipv6ForwardingValue := inr "0" |}.

(** A host whose IPv6 forwarding value cannot be read. *)
Definition hostNoIPv6 : Host :=
  {| host_defaultNetworkInterface := inr "wlan0";
     host_ipv4ForwardingValue := inr "1";
     host_ipv6ForwardingValue := inl (errors_New "no such file or directory") |}.

(** An operating system that refuses to set up the TUN interface. *)
Definition osSetupTUNFails : OS :=
  {| os_sys := fun _ c =>
       match c with
       | SetupTUN _ _ _ _ _ => Some (errors_New "operation not permitted")
       | _ => None
       end;
     os_setupSysPrivileges := fun _ => inr 1000;
     os_newTUNDevice := fun _ => inr "tun0" |}.

(** An operating system that cannot switch IPv6 forwarding on. *)
Definition osNoIPv6Forwarding : OS :=
  {| os_sys := fun _ c =>
       match c with
       | EnableIPv6Forwarding => Some (errors_New "read-only file system")
       | _ => None
       end;
     os_setupSysPrivileges := fun _ => inr 1000;
     os_newTUNDevice := fun _ => inr "tun0" |}.

(** A client that declares two addresses of the pool as taken. *)
Definition helloTwoTaken : ClientHello :=
  {| Passcode := "";
     UnavailablePrivateIPs := [[192; 168; 0; 1]; [192; 168; 0; 9]] |}.

(** A pool that hands out one base which is not an IPv4 address. *)
Definition brokenPoolNext (g : unit) : unit * (error + IP) :=
  (g, inr [1; 2; 3]).

Section VPN.

(** *** Declarations of package [vpn] outside [server.go] *)

(** The state of an [IPGenerator] and its two methods, each returning the
    state it leaves behind. *)
Variable IPGenerator : Type.
Variable IPGenerator_Reserve : IPGenerator -> IP -> IPGenerator * option error.
Variable IPGenerator_Next : IPGenerator -> IPGenerator * (error + IP).

(** [fetchIPv4Octets(ip) ([4]uint8, error)]. *)
Variable fetchIPv4Octets : IP -> error + (Z * Z * Z * Z).

(** The handshake statuses that [server.go] assigns. *)
Variable HandshakeStatusForbidden : HandshakeStatus.
Variable HandshakeStatusBadRequest : HandshakeStatus.
Variable HandshakeNoFreeIPs : HandshakeStatus.
Variable HandshakeStatusInternalError : HandshakeStatus.

Variable TUNNetmaskCIDR : string.
Variable TUNMTU : Z.

Variable os : OS.

(** *** The monad of server code *)

Local Abbreviation World := (World IPGenerator).

Definition M (A : Type) : Type := World -> A * World.

Definition ret {A : Type} (a : A) : M A := fun w => (a, w).

Definition bind {A B : Type} (m : M A) (k : A -> M B) : M B :=
  fun w => let (a, w') := m w in k a w'.

Notation "x <- m ;; k" := (bind m (fun x => k))
  (at level 100, m at next level, right associativity).
Notation "m ;;; k" := (bind m (fun _ => k))
  (at level 100, right associativity).

Definition emit (e : Event) : M unit :=
  fun w => (tt, {| ipGen := ipGen w; trace := trace w ++ [e] |}).

(** [defer d] followed by the rest of the function body: [d] runs once
    the body has returned. *)
Definition defer {A : Type} (d : M unit) (body : M A) : M A :=
  x <- body ;; d ;;; ret x.

(** *** Primitive actions *)

Definition log (lvl : LogLevel) (msg : string) (err : option error) : M unit :=
  emit (EvLog lvl msg err).

Definition ReadJSON (conn : Conn) : M (error + ClientHello) :=
  emit (EvReadJSON (RemoteAddr conn) (conn_hello conn)) ;;;
  ret (conn_hello conn).

Definition WriteJSON (conn : Conn) (h : ServerHello) : M (option error) :=
  emit (EvWriteJSON (RemoteAddr conn) h (conn_send conn h)) ;;;
  ret (conn_send conn h).

Definition Reserve (ip : IP) : M (option error) :=
  fun w =>
    let (g, r) := IPGenerator_Reserve (ipGen w) ip in
    (r, {| ipGen := g; trace := trace w ++ [EvReserve ip r] |}).

Definition Next : M (error + IP) :=
  fun w =>
    let (g, r) := IPGenerator_Next (ipGen w) in
    (r, {| ipGen := g; trace := trace w ++ [EvNext r] |}).

Definition sys (c : Syscall) : M (option error) :=
  fun w =>
    let r := os_sys os (trace w) c in
    (r, {| ipGen := ipGen w; trace := trace w ++ [EvSys c r] |}).

Definition setupSysPrivileges : M (error + Z) :=
  fun w =>
    let r := os_setupSysPrivileges os (trace w) in
    (r, {| ipGen := ipGen w; trace := trace w ++ [EvSetupSysPrivileges r] |}).

Definition newTUNDevice : M (error + string) :=
  fun w =>
    let r := os_newTUNDevice os (trace w) in
    (r, {| ipGen := ipGen w; trace := trace w ++ [EvNewTUNDevice r] |}).

(** *** [shakeHands] *)

(** The block that every failure branch of [shakeHands] repeats:
    [if err := WriteJSON(conn, &sHello); err != nil { log }]. *)
Definition writeHelloOrLog (conn : Conn) (sHello : ServerHello) : M unit :=
  r <- WriteJSON conn sHello ;;
  match r with
  | Some err => log Error "Error sending server hello" (Some err)
  | None => ret tt
  end.

(** [for _, ip := range cHello.UnavailablePrivateIPs { ... }]: [Some e]
    when the loop body returned from [shakeHands] with error [e]. *)
Fixpoint reserveUnavailable (conn : Conn) (sHello : ServerHello)
    (ips : list IP) : M (option error) :=
  match ips with
  | [] => ret None
  | ip :: rest =>
      r <- Reserve ip ;;
      match r with
      | Some err =>
          let sHello := set_Status sHello HandshakeStatusBadRequest in
          writeHelloOrLog conn sHello ;;;
          ret (Some (fmt_Errorf "error reserving IP %s: %w" [ArgIP ip; ArgErr err]))
      | None => reserveUnavailable conn sHello rest
      end
  end.

(** The address [net.IPv4(o[0], o[1], o[2], o[3]+k)] of lines 295-299. *)
Definition subnetPlus (o : Z * Z * Z * Z) (k : Z) : IP :=
  let '(o0, o1, o2, o3) := o in net_IPv4 o0 o1 o2 (uint8_add o3 k).

(** [s.cfg.Passcode != "" && cHello.Passcode != s.cfg.Passcode]. *)
Definition wrongPasscode (s : Server) (cHello : ClientHello) : bool :=
  negb (cfg_Passcode (cfg s) =? "")%string
  && negb (Passcode cHello =? cfg_Passcode (cfg s))%string.

Definition shakeHands (s : Server) (conn : Conn) : M (error + IP * IP) :=
  r <- ReadJSON conn ;;
  match r with
  | inl err =>
      ret (inl (fmt_Errorf "error reading client hello: %w" [ArgErr err]))
  | inr cHello =>
      log Debug "Got client hello: %v" None ;;;
      let sHello := ServerHello_zero in
      if wrongPasscode s cHello then
        let sHello := set_Status sHello HandshakeStatusForbidden in
        writeHelloOrLog conn sHello ;;;
        ret (inl (errors_New "got wrong passcode from client"))
      else
        looped <- reserveUnavailable conn sHello (UnavailablePrivateIPs cHello) ;;
        match looped with
        | Some err => ret (inl err)
        | None =>
            nx <- Next ;;
            match nx with
            | inl err =>
                let sHello := set_Status sHello HandshakeNoFreeIPs in
                writeHelloOrLog conn sHello ;;;
                ret (inl (fmt_Errorf "error getting free subnet IP: %w" [ArgErr err]))
            | inr subnet =>
                match fetchIPv4Octets subnet with
                | inl err =>
                    let sHello := set_Status sHello HandshakeStatusInternalError in
                    writeHelloOrLog conn sHello ;;;
                    ret (inl (fmt_Errorf "error breaking IP into octets: %w" [ArgErr err]))
                | inr subnetOctets =>
                    let sTUNIP := subnetPlus subnetOctets 2 in
                    let sTUNGateway := subnetPlus subnetOctets 1 in
                    let cTUNIP := subnetPlus subnetOctets 4 in
                    let cTUNGateway := subnetPlus subnetOctets 3 in
                    let sHello := set_TUNIP sHello cTUNIP in
                    let sHello := set_TUNGateway sHello cTUNGateway in
                    w <- WriteJSON conn sHello ;;
                    match w with
                    | Some err =>
                        ret (inl (fmt_Errorf
                          "error finishing hadnshake: error sending server hello: %w"
                          [ArgErr err]))
                    | None => ret (inr (sTUNIP, sTUNGateway))
                    end
                end
            end
        end
  end.

(** *** [serveConn] *)

(** The method [releaseSysPrivileges] of [Server]. *)
Definition Server_releaseSysPrivileges (suid : Z) : M unit :=
  r <- sys (ReleaseSysPrivileges suid) ;;
  match r with
  | Some err => log Error "Failed to release system privileges" (Some err)
  | None => ret tt
  end.

Definition closeConn (conn : Conn) : M unit :=
  r <- sys (Conn_Close (RemoteAddr conn)) ;;
  match r with
  | Some err => log Error "Error closing client %s connection" (Some err)
  | None => ret tt
  end.

Definition closeTUN (tun : string) : M unit :=
  r <- sys (TUN_Close tun) ;;
  match r with
  | Some err => log Error "Error closing TUN %s" (Some err)
  | None => ret tt
  end.

(** The two relay goroutines are recorded where they are started, and the
    [select] where the function waits for the first of them. *)
Definition serveConn (s : Server) (conn : Conn) : M unit :=
  defer (closeConn conn) (
    r <- shakeHands s conn ;;
    match r with
    | inl err => log Error "Error negotiating with client %s" (Some err)
    | inr (tunIP, tunGateway) =>
        p <- setupSysPrivileges ;;
        match p with
        | inl err => log Error "Failed to setup system privileges" (Some err)
        | inr suid =>
            defer (Server_releaseSysPrivileges suid) (
              t <- newTUNDevice ;;
              match t with
              | inl err => log Error "Error allocating TUN interface" (Some err)
              | inr tun =>
                  defer (closeTUN tun) (
                    log Info "Allocated TUN %s" None ;;;
                    e <- sys (SetupTUN tun tunIP TUNNetmaskCIDR tunGateway TUNMTU) ;;
                    match e with
                    | Some err => log Error "Error setting up TUN %s" (Some err)
                    | None =>
                        Server_releaseSysPrivileges suid ;;;
                        p2 <- setupSysPrivileges ;;
                        match p2 with
                        | inl err =>
                            log Error "Failed to setup system privileges to clear up"
                              (Some err)
                        | inr _ => ret tt
                        end ;;;
                        emit (EvGoCopy (EpTUN tun) (EpConn (RemoteAddr conn))) ;;;
                        emit (EvGoCopy (EpConn (RemoteAddr conn)) (EpTUN tun)) ;;;
                        emit EvSelect
                    end)
              end)
        end
    end).

(** *** [Serve] *)

Definition set_lis (s : Server) (l : option Listener) : Server :=
  {| cfg := cfg s; lis := l; serveOnce := serveOnce s;
     defaultNetworkInterface := defaultNetworkInterface s;
     ipv4ForwardingVal := ipv4ForwardingVal s;
     ipv6ForwardingVal := ipv6ForwardingVal s |}.

Definition set_serveOnce (s : Server) (b : bool) : Server :=
  {| cfg := cfg s; lis := lis s; serveOnce := b;
     defaultNetworkInterface := defaultNetworkInterface s;
     ipv4ForwardingVal := ipv4ForwardingVal s;
     ipv6ForwardingVal := ipv6ForwardingVal s |}.

(** The three deferred restoring closures of [Serve]. *)
Definition revertIPv4 (s : Server) : M unit :=
  r <- sys (SetIPv4ForwardingValue (ipv4ForwardingVal s)) ;;
  match r with
  | Some err => log Error "Error reverting IPv4 forwarding" (Some err)
  | None => log Info "Set IPv4 forwarding = %s" None
  end.

Definition revertIPv6 (s : Server) : M unit :=
  r <- sys (SetIPv6ForwardingValue (ipv6ForwardingVal s)) ;;
  match r with
  | Some err => log Error "Error reverting IPv6 forwarding" (Some err)
  | None => log Info "Set IPv6 forwarding = %s" None
  end.

Definition disableMasquerading (s : Server) : M unit :=
  r <- sys (DisableIPMasquerading (defaultNetworkInterface s)) ;;
  match r with
  | Some err => log Error "Error disabling IP masquerading for %s" (Some err)
  | None => log Info "Disabled IP masquerading for %s" None
  end.

(** The deferred closure that takes privileges back for the clean-up. *)
Definition setupToClearUp : M unit :=
  p <- setupSysPrivileges ;;
  match p with
  | inl err => log Error "Failed to setup system privileges to clear up" (Some err)
  | inr _ => ret tt
  end.

(** [for { conn, err := s.lis.Accept(); ... go s.serveConn(conn) }] on a
    listener that fails with [e] after accepting [conns]; the value is the
    [serveErr] it assigns before returning. *)
Fixpoint acceptLoop (conns : list Conn) (e : error) : M error :=
  match conns with
  | [] =>
      emit (EvAccept (inl e)) ;;;
      ret (fmt_Errorf "failed to accept client connection: %w" [ArgErr e])
  | conn :: rest =>
      emit (EvAccept (inr conn)) ;;;
      emit (EvGoServeConn conn) ;;;
      acceptLoop rest e
  end.

(** The closure given to [s.serveOnce.Do]; its value is the [serveErr] it
    assigned and the server with [lis] as it left it. *)
Definition serveOnceBody (s : Server) (l : Listener) : M (error * Server) :=
  p <- setupSysPrivileges ;;
  match p with
  | inl err =>
      ret (fmt_Errorf "failed to setup system privileges: %w" [ArgErr err], s)
  | inr suid =>
      defer (Server_releaseSysPrivileges suid) (
        e4 <- sys EnableIPv4Forwarding ;;
        match e4 with
        | Some err =>
            ret (fmt_Errorf "error enabling IPv4 forwarding: %w" [ArgErr err], s)
        | None =>
            log Info "Set IPv4 forwarding = 1" None ;;;
            defer (revertIPv4 s) (
              e6 <- sys EnableIPv6Forwarding ;;
              match e6 with
              | Some err =>
                  ret (fmt_Errorf "error enabling IPv6 forwarding: %w" [ArgErr err], s)
              | None =>
                  log Info "Set IPv6 forwarding = 1" None ;;;
                  defer (revertIPv6 s) (
                    m <- sys (EnableIPMasquerading (defaultNetworkInterface s)) ;;
                    match m with
                    | Some err =>
                        ret (fmt_Errorf "error enabling IP masquerading for %s: %w"
                               [ArgStr (defaultNetworkInterface s); ArgErr err], s)
                    | None =>
                        log Info "Enabled IP masquerading" None ;;;
                        defer (disableMasquerading s) (
                          Server_releaseSysPrivileges suid ;;;
                          defer setupToClearUp (
                            let s := set_lis s (Some l) in
                            serveErr <- acceptLoop (lis_conns l) (lis_err l) ;;
                            ret (serveErr, s)))
                    end)
              end)
        end)
  end.

Definition Serve (s : Server) (l : Listener) : M (error * Server) :=
  let serveErr := errors_New "already serving" in
  if serveOnce s then ret (serveErr, s)
  else
    r <- serveOnceBody s l ;;
    ret (fst r, set_serveOnce (snd r) true).

(** *** What a run leaves in the trace *)

(** The events of [writeHelloOrLog]. *)
Definition helloEvents (conn : Conn) (h : ServerHello) : list Event :=
  EvWriteJSON (RemoteAddr conn) h (conn_send conn h) ::
  match conn_send conn h with
  | Some err => [EvLog Error "Error sending server hello" (Some err)]
  | None => []
  end.

Definition isReserveOk (e : Event) : bool :=
  match e with EvReserve _ None => true | _ => false end.

(** The events of [acceptLoop]. *)
Fixpoint acceptEvents (conns : list Conn) (e : error) : list Event :=
  match conns with
  | [] => [EvAccept (inl e)]
  | conn :: rest => EvAccept (inr conn) :: EvGoServeConn conn :: acceptEvents rest e
  end.

(** The events of [releaseSysPrivileges] of [Server], of the closure that
    takes privileges back and of the three restoring closures, given the
    answer [r] of the operating system. *)
Definition releaseEvents (suid : Z) (r : option error) : list Event :=
  EvSys (ReleaseSysPrivileges suid) r ::
  match r with
  | Some err => [EvLog Error "Failed to release system privileges" (Some err)]
  | None => []
  end.

Definition setupToClearUpEvents (r : error + Z) : list Event :=
  EvSetupSysPrivileges r ::
  match r with
  | inl err => [EvLog Error "Failed to setup system privileges to clear up" (Some err)]
  | inr _ => []
  end.

Definition disableMasqueradingEvents (s : Server) (r : option error) : list Event :=
  [EvSys (DisableIPMasquerading (defaultNetworkInterface s)) r;
   match r with
   | Some err => EvLog Error "Error disabling IP masquerading for %s" (Some err)
   | None => EvLog Info "Disabled IP masquerading for %s" None
   end].

Definition revertIPv6Events (s : Server) (r : option error) : list Event :=
  [EvSys (SetIPv6ForwardingValue (ipv6ForwardingVal s)) r;
   match r with
   | Some err => EvLog Error "Error reverting IPv6 forwarding" (Some err)
   | None => EvLog Info "Set IPv6 forwarding = %s" None
   end].

Definition revertIPv4Events (s : Server) (r : option error) : list Event :=
  [EvSys (SetIPv4ForwardingValue (ipv4ForwardingVal s)) r;
   match r with
   | Some err => EvLog Error "Error reverting IPv4 forwarding" (Some err)
   | None => EvLog Info "Set IPv4 forwarding = %s" None
   end].

(** The events of a completed global setup under privileges [suid]. *)
Definition setupEvents (s : Server) (suid : Z) : list Event :=
  [EvSetupSysPrivileges (inr suid);
   EvSys EnableIPv4Forwarding None;
   EvLog Info "Set IPv4 forwarding = 1" None;
   EvSys EnableIPv6Forwarding None;
   EvLog Info "Set IPv6 forwarding = 1" None;
   EvSys (EnableIPMasquerading (defaultNetworkInterface s)) None;
   EvLog Info "Enabled IP masquerading" None].

(** The events of the teardown that follows a completed setup: privileges
    are taken back, then masquerading, IPv6 forwarding and IPv4 forwarding
    are put back, then privileges are released. *)
Definition teardownEvents (s : Server) (suid : Z) (rp : error + Z)
    (rm r6 r4 rr : option error) : list Event :=
  setupToClearUpEvents rp ++ disableMasqueradingEvents s rm
  ++ revertIPv6Events s r6 ++ revertIPv4Events s r4 ++ releaseEvents suid rr.

(** The events of [closeConn] and of the deferred closing of the TUN. *)
Definition closeConnEvents (conn : Conn) (r : option error) : list Event :=
  EvSys (Conn_Close (RemoteAddr conn)) r ::
  match r with
  | Some err => [EvLog Error "Error closing client %s connection" (Some err)]
  | None => []
  end.

Definition closeTUNEvents (tun : string) (r : option error) : list Event :=
  EvSys (TUN_Close tun) r ::
  match r with
  | Some err => [EvLog Error "Error closing TUN %s" (Some err)]
  | None => []
  end.

(** The events a handshake can add: they neither touch privileges nor
    start a relay. *)
Definition isHandshakeEvent (e : Event) : bool :=
  match e with
  | EvReadJSON _ _ | EvWriteJSON _ _ _ | EvReserve _ _ | EvNext _
  | EvLog _ _ _ => true
  | _ => false
  end.

(** The last octet of an address. *)
Definition lastOctet (o : Z * Z * Z * Z) : Z := let '(_, _, _, d) := o in d.

(** *** More projections of a trace *)

(** The addresses handed to [Reserve]. *)
Definition reserveCalls : list Event -> list IP :=
  pick (fun e => match e with EvReserve ip _ => Some ip | _ => None end).

(** The relay tasks started, as (destination, source). *)
Definition relayStarts : list Event -> list (Endpoint * Endpoint) :=
  pick (fun e => match e with EvGoCopy d s => Some (d, s) | _ => None end).

(** The TUN devices created and the TUN devices closed. *)
Definition tunsCreated : list Event -> list string :=
  pick (fun e => match e with EvNewTUNDevice (inr tun) => Some tun | _ => None end).

Definition tunsClosed : list Event -> list string :=
  pick (fun e => match e with EvSys (TUN_Close tun) _ => Some tun | _ => None end).

(** The connections closed. *)
Definition connsClosed : list Event -> list string :=
  pick (fun e => match e with EvSys (Conn_Close r) _ => Some r | _ => None end).

(** The connections accepted and the connections given a task. *)
Definition accepted : list Event -> list Conn :=
  pick (fun e => match e with EvAccept (inr c) => Some c | _ => None end).

Definition spawned : list Event -> list Conn :=
  pick (fun e => match e with EvGoServeConn c => Some c | _ => None end).

(** The outcomes of the calls to [setupSysPrivileges]. *)
Definition setupCalls : list Event -> list (error + Z) :=
  pick (fun e => match e with EvSetupSysPrivileges r => Some r | _ => None end).

(** The user ids handed to [releaseSysPrivileges]. *)
Definition releaseCalls : list Event -> list Z :=
  pick (fun e =>
    match e with
    | EvSys (ReleaseSysPrivileges suid) _ => Some suid
    | _ => None
    end).

(** The releases of privileges that failed. *)
Definition failedReleases : list Event -> list error :=
  pick (fun e =>
    match e with
    | EvSys (ReleaseSysPrivileges _) (Some err) => Some err
    | _ => None
    end).

(** Whether privileges are held at the end of a trace; [held] tells
    whether they are at its start. *)
Definition holdsPrivileges (held : bool) (t : list Event) : bool :=
  fold_left privStep t held.


(** The restoring call that undoes an enabling call of server [s]. *)
Definition undoCall (s : Server) (c : Syscall) : Syscall :=
  match c with
  | EnableIPv4Forwarding => SetIPv4ForwardingValue (ipv4ForwardingVal s)
  | EnableIPv6Forwarding => SetIPv6ForwardingValue (ipv6ForwardingVal s)
  | EnableIPMasquerading ifc => DisableIPMasquerading ifc
  | other => other
  end.

(** The enabling calls that succeeded. *)
Definition enabled (t : list Event) : list Syscall :=
  map fst (filter (fun cr => match snd cr with None => true | Some _ => false end)
             (enableCalls t)).

(** *** [Close] and [NewServer] *)

(** [Close]: [closeLis l] is what [l.Close()] answers.  The value holds the
    error returned, the server as it is left and the listeners on which
    [Close] was called. *)
Definition Close (closeLis : Listener -> option error) (s : Server)
    : option error * Server * list Listener :=
  match lis s with
  | None => (None, s, [])
  | Some l =>
      let err := closeLis l in
      (err, set_lis s None, [l])
  end.

(** [NewServer]: [NewIPGenerator] is the pool that [NewIPGenerator()]
    returns; the three queries of the host are reads and leave no event,
    their answers are those of [host]. *)
Definition NewServer (NewIPGenerator : IPGenerator) (host : Host)
    (c : ServerConfig) : M (error + Server) :=
  p <- setupSysPrivileges ;;
  match p with
  | inl _ => ret (inl (fmt_Errorf "failed to setup system privileges" []))
  | inr suid =>
      (fun w => (tt, {| ipGen := NewIPGenerator; trace := trace w |})) ;;;
      defer (Server_releaseSysPrivileges suid) (
        match host_defaultNetworkInterface host with
        | inl err =>
            ret (inl (fmt_Errorf "error getting default network interface: %w"
                        [ArgErr err]))
        | inr defaultNetworkIfc =>
            log Info "Got default network interface: %s" None ;;;
            match host_ipv4ForwardingValue host with
            | inl err =>
                ret (inl (fmt_Errorf "error getting IPv4 forwarding value: %w"
                            [ArgErr err]))
            | inr ipv4 =>
                match host_ipv6ForwardingValue host with
                | inl _ =>
                    ret (inl (fmt_Errorf "error getting IPv6 forwarding value" []))
                | inr ipv6 =>
                    log Info "Old IP forwarding values:" None ;;;
                    log Info "IPv4: %s, IPv6: %s" None ;;;
                    ret (inr {| cfg := c;
                                lis := None;
                                serveOnce := false;
                                defaultNetworkInterface := defaultNetworkIfc;
                                ipv4ForwardingVal := ipv4;
                                ipv6ForwardingVal := ipv6 |})
                end
            end
        end)
  end.

(** ** Properties *)

Lemma pick_app (A : Type) (f : Event -> option A) (a b : list Event) :
  pick f (a ++ b) = pick f a ++ pick f b.
Proof.
  induction a as [|e a IH]; cbn; [reflexivity|].
  destruct (f e); cbn; now rewrite IH.
Qed.

Lemma pick_reserveOk (A : Type) (f : Event -> option A) (oks : list Event) :
  (forall ip, f (EvReserve ip None) = None) ->
  forallb isReserveOk oks = true -> pick f oks = [].
Proof.
  intros Hf. induction oks as [|e oks IH]; cbn; [reflexivity|].
  intros H. apply andb_true_iff in H as [He Hoks].
  destruct e as [| | | | |ip [err|]| | | | | |]; try discriminate.
  rewrite Hf. now apply IH.
Qed.

Lemma poolCalls_reserveOk (oks : list Event) :
  forallb isReserveOk oks = true -> poolCalls oks = oks.
Proof.
  induction oks as [|e oks IH]; cbn; [reflexivity|].
  intros H. apply andb_true_iff in H as [He Hoks].
  destruct e as [| | | | |ip [err|]| | | | | |]; try discriminate.
  cbn. f_equal. now apply IH.
Qed.

Lemma writeHelloOrLog_run (conn : Conn) (h : ServerHello) (w : World) :
  writeHelloOrLog conn h w
  = (tt, {| ipGen := ipGen w; trace := trace w ++ helloEvents conn h |}).
Proof.
  unfold writeHelloOrLog, WriteJSON, helloEvents, bind, emit, log, ret, emit.
  cbn. destruct (conn_send conn h); cbn; [|reflexivity].
  now rewrite <- app_assoc.
Qed.

(** The reservation loop: a run of successful reservations, then either the
    end of the list or one failed reservation answered with [BadRequest]. *)
Lemma reserveUnavailable_run (conn : Conn) (h : ServerHello) (ips : list IP)
    (w : World) :
  exists oks, forallb isReserveOk oks = true /\
    match fst (reserveUnavailable conn h ips w) with
    | None => trace (snd (reserveUnavailable conn h ips w)) = trace w ++ oks
    | Some e =>
        exists ip err,
          trace (snd (reserveUnavailable conn h ips w))
          = trace w ++ oks ++ EvReserve ip (Some err)
              :: helloEvents conn (set_Status h HandshakeStatusBadRequest)
          /\ e = fmt_Errorf "error reserving IP %s: %w" [ArgIP ip; ArgErr err]
    end.
Proof.
  revert w. induction ips as [|ip rest IH]; intros w.
  - exists []. split; [reflexivity|]. cbn. now rewrite app_nil_r.
  - cbn [reserveUnavailable]. unfold bind, Reserve.
    destruct (IPGenerator_Reserve (ipGen w) ip) as [g [err|]].
    + exists []. split; [reflexivity|].
      rewrite writeHelloOrLog_run. cbn.
      exists ip, err. split; [|reflexivity]. now rewrite <- app_assoc.
    + specialize (IH {| ipGen := g; trace := trace w ++ [EvReserve ip None] |}).
      destruct IH as (oks & Hoks & IH).
      exists (EvReserve ip None :: oks). split; [cbn; exact Hoks|].
      destruct (fst (reserveUnavailable conn h rest _)).
      * destruct IH as (ip' & err' & Ht & He). exists ip', err'.
        split; [|exact He]. rewrite Ht. cbn. now rewrite <- app_assoc.
      * rewrite IH. cbn. now rewrite <- app_assoc.
Qed.

(** Every run of [shakeHands], path by path: the events it adds, what it
    returns and what it does to the pool. *)
Lemma shakeHands_cases (s : Server) (conn : Conn) (w : World) :
  exists evs,
    trace (snd (shakeHands s conn w)) = trace w ++ evs /\
    match conn_hello conn with
    | inl err =>
        evs = [EvReadJSON (RemoteAddr conn) (inl err)] /\
        fst (shakeHands s conn w)
        = inl (fmt_Errorf "error reading client hello: %w" [ArgErr err]) /\
        ipGen (snd (shakeHands s conn w)) = ipGen w
    | inr cHello =>
        let pre := [EvReadJSON (RemoteAddr conn) (inr cHello);
                    EvLog Debug "Got client hello: %v" None] in
        if wrongPasscode s cHello then
          evs = pre ++ helloEvents conn
                  (set_Status ServerHello_zero HandshakeStatusForbidden) /\
          fst (shakeHands s conn w)
          = inl (errors_New "got wrong passcode from client") /\
          ipGen (snd (shakeHands s conn w)) = ipGen w
        else
          exists oks, forallb isReserveOk oks = true /\
            ((exists ip err,
                evs = pre ++ oks ++ [EvReserve ip (Some err)]
                        ++ helloEvents conn
                             (set_Status ServerHello_zero HandshakeStatusBadRequest) /\
                fst (shakeHands s conn w)
                = inl (fmt_Errorf "error reserving IP %s: %w" [ArgIP ip; ArgErr err]))
             \/
             (exists g0 nx,
                IPGenerator_Next g0 = (ipGen (snd (shakeHands s conn w)), nx) /\
                match nx with
                | inl err =>
                    evs = pre ++ oks ++ [EvNext (inl err)]
                            ++ helloEvents conn
                                 (set_Status ServerHello_zero HandshakeNoFreeIPs) /\
                    fst (shakeHands s conn w)
                    = inl (fmt_Errorf "error getting free subnet IP: %w" [ArgErr err])
                | inr subnet =>
                    match fetchIPv4Octets subnet with
                    | inl err =>
                        evs = pre ++ oks ++ [EvNext (inr subnet)]
                                ++ helloEvents conn
                                     (set_Status ServerHello_zero
                                        HandshakeStatusInternalError) /\
                        fst (shakeHands s conn w)
                        = inl (fmt_Errorf "error breaking IP into octets: %w"
                                 [ArgErr err])
                    | inr o =>
                        let hello := {| Status := HandshakeStatus_zero;
                                        TUNIP := subnetPlus o 4;
                                        TUNGateway := subnetPlus o 3 |} in
                        evs = pre ++ oks
                                ++ [EvNext (inr subnet);
                                    EvWriteJSON (RemoteAddr conn) hello
                                      (conn_send conn hello)] /\
                        fst (shakeHands s conn w)
                        = match conn_send conn hello with
                          | Some err =>
                              inl (fmt_Errorf
                                "error finishing hadnshake: error sending server hello: %w"
                                [ArgErr err])
                          | None => inr (subnetPlus o 2, subnetPlus o 1)
                          end
                    end
                end))
    end.
Proof.
  destruct (shakeHands s conn w) as [r w'] eqn:E. cbn [fst snd].
  unfold shakeHands, ReadJSON, log in E.
  unfold bind at 1 2 3 in E. unfold emit, ret in E. cbn in E.
  destruct (conn_hello conn) as [err|cHello].
  - injection E as <- <-. eexists. split; [reflexivity|]. cbn. auto.
  - destruct (wrongPasscode s cHello).
    + unfold bind, ret in E. rewrite writeHelloOrLog_run in E. cbn in E.
      injection E as <- <-. cbn.
      eexists. split; [|split; [reflexivity|auto]].
      now rewrite <- !app_assoc.
    + unfold bind at 1 in E.
      match type of E with
      | context [reserveUnavailable conn ?h ?ips ?w1] =>
          destruct (reserveUnavailable_run conn h ips w1) as (oks & Hoks & Hrun);
          destruct (reserveUnavailable conn h ips w1) as [[e|] w2]
      end; cbn in Hrun.
      * destruct Hrun as (ip & err & Ht & ->). injection E as <- <-.
        eexists. split; [rewrite Ht; rewrite <- !app_assoc; reflexivity|].
        exists oks. split; [exact Hoks|]. left. exists ip, err. auto.
      * unfold bind, Next, ret in E.
        destruct (IPGenerator_Next (ipGen w2)) as [g [err|subnet]] eqn:Hnext.
        -- rewrite writeHelloOrLog_run in E. cbn in E. injection E as <- <-.
           eexists. split; [cbn; rewrite Hrun; rewrite <- !app_assoc; reflexivity|].
           exists oks. split; [exact Hoks|]. right.
           exists (ipGen w2), (inl err). split; [exact Hnext|]. auto.
        -- destruct (fetchIPv4Octets subnet) as [err|o] eqn:Hfetch.
           ++ rewrite writeHelloOrLog_run in E. cbn in E. injection E as <- <-.
              eexists. split; [cbn; rewrite Hrun; rewrite <- !app_assoc; reflexivity|].
              exists oks. split; [exact Hoks|]. right.
              exists (ipGen w2), (inr subnet). split; [exact Hnext|].
              rewrite Hfetch. auto.
           ++ unfold WriteJSON, bind, emit, ret in E. cbn in E.
              exists ([EvReadJSON (RemoteAddr conn) (inr cHello);
                       EvLog Debug "Got client hello: %v" None]
                      ++ oks
                      ++ [EvNext (inr subnet);
                          EvWriteJSON (RemoteAddr conn)
                            {| Status := HandshakeStatus_zero;
                               TUNIP := subnetPlus o 4;
                               TUNGateway := subnetPlus o 3 |}
                            (conn_send conn
                               {| Status := HandshakeStatus_zero;
                                  TUNIP := subnetPlus o 4;
                                  TUNGateway := subnetPlus o 3 |})]).
              change (set_TUNGateway (set_TUNIP ServerHello_zero (subnetPlus o 4))
                        (subnetPlus o 3))
                with {| Status := HandshakeStatus_zero;
                        TUNIP := subnetPlus o 4;
                        TUNGateway := subnetPlus o 3 |} in E.
              split.
              ** destruct (conn_send conn _); injection E as <- <-; cbn;
                   rewrite Hrun; rewrite <- !app_assoc; reflexivity.
              ** exists oks. split; [exact Hoks|]. right.
                 exists (ipGen w2), (inr subnet). rewrite Hfetch.
                 destruct (conn_send conn _); injection E as <- <-; cbn; auto.
Qed.

(** *** Projections of the events of a handshake *)

Lemma sendResults_app (a b : list Event) :
  sendResults (a ++ b) = sendResults a ++ sendResults b.
Proof. apply pick_app. Qed.

Lemma nextCalls_app (a b : list Event) :
  nextCalls (a ++ b) = nextCalls a ++ nextCalls b.
Proof. apply pick_app. Qed.

Lemma poolCalls_app (a b : list Event) :
  poolCalls (a ++ b) = poolCalls a ++ poolCalls b.
Proof. apply pick_app. Qed.

Lemma reserveFailures_app (a b : list Event) :
  reserveFailures (a ++ b) = reserveFailures a ++ reserveFailures b.
Proof. apply pick_app. Qed.

Lemma sendResults_reserveOk (oks : list Event) :
  forallb isReserveOk oks = true -> sendResults oks = [].
Proof. now apply pick_reserveOk. Qed.

Lemma nextCalls_reserveOk (oks : list Event) :
  forallb isReserveOk oks = true -> nextCalls oks = [].
Proof. now apply pick_reserveOk. Qed.

Lemma reserveFailures_reserveOk (oks : list Event) :
  forallb isReserveOk oks = true -> reserveFailures oks = [].
Proof. now apply pick_reserveOk. Qed.

Lemma sendResults_helloEvents (conn : Conn) (h : ServerHello) :
  sendResults (helloEvents conn h) = [(h, conn_send conn h)].
Proof. unfold helloEvents. now destruct (conn_send conn h). Qed.

Lemma nextCalls_helloEvents (conn : Conn) (h : ServerHello) :
  nextCalls (helloEvents conn h) = [].
Proof. unfold helloEvents. now destruct (conn_send conn h). Qed.

Lemma poolCalls_helloEvents (conn : Conn) (h : ServerHello) :
  poolCalls (helloEvents conn h) = [].
Proof. unfold helloEvents. now destruct (conn_send conn h). Qed.

Lemma reserveFailures_helloEvents (conn : Conn) (h : ServerHello) :
  reserveFailures (helloEvents conn h) = [].
Proof. unfold helloEvents. now destruct (conn_send conn h). Qed.

(** Normalises the projections of a list of events put together from a
    prefix, successful reservations and an explicit tail. *)
Ltac project Hoks :=
  unfold sentHellos;
  rewrite ?sendResults_app, ?nextCalls_app, ?poolCalls_app, ?reserveFailures_app;
  rewrite ?sendResults_helloEvents, ?nextCalls_helloEvents,
    ?poolCalls_helloEvents, ?reserveFailures_helloEvents,
    ?(sendResults_reserveOk _ Hoks), ?(nextCalls_reserveOk _ Hoks),
    ?(reserveFailures_reserveOk _ Hoks), ?(poolCalls_reserveOk _ Hoks);
  cbv [sendResults nextCalls poolCalls reserveFailures pick app map fst].

(** *** Address arithmetic *)

Lemma subnetPlus_To4 (o0 o1 o2 o3 k : Z) :
  IP_To4 (subnetPlus (o0, o1, o2, o3) k) = Some (o0, o1, o2, (o3 + k) mod 256).
Proof. reflexivity. Qed.

Lemma subnetPlus_no_carry (o : Z * Z * Z * Z) (k : Z) :
  0 <= lastOctet o -> 0 <= k -> lastOctet o + k <= 255 ->
  option_map octetsToZ (IP_To4 (subnetPlus o k)) = Some (octetsToZ o + k).
Proof.
  destruct o as [[[o0 o1] o2] o3]. cbn [lastOctet]. intros H0 Hk Hle.
  rewrite subnetPlus_To4. cbn [option_map octetsToZ].
  rewrite Z.mod_small by lia. f_equal. lia.
Qed.

Lemma subnetPlus_wraps (o0 o1 o2 o3 k : Z) :
  o3 <= 255 -> k <= 256 -> 256 <= o3 + k ->
  IP_To4 (subnetPlus (o0, o1, o2, o3) k) = Some (o0, o1, o2, o3 + k - 256).
Proof.
  intros H3 Hk Hge. rewrite subnetPlus_To4. do 2 f_equal.
  transitivity ((o3 + k - 256) mod 256); [|apply Z.mod_small; lia].
  rewrite <- (Z_mod_plus_full (o3 + k - 256) 1 256). f_equal. lia.
Qed.

(** A successful handshake went down the last path of [shakeHands]. *)
Lemma shakeHands_success (s : Server) (conn : Conn) (w w' : World)
    (tunIP tunGateway : IP) :
  shakeHands s conn w = (inr (tunIP, tunGateway), w') ->
  exists evs B o,
    trace w' = trace w ++ evs /\
    nextCalls evs = [inr B] /\
    fetchIPv4Octets B = inr o /\
    sendResults evs
    = [({| Status := HandshakeStatus_zero;
           TUNIP := subnetPlus o 4;
           TUNGateway := subnetPlus o 3 |}, None)] /\
    tunIP = subnetPlus o 2 /\
    tunGateway = subnetPlus o 1.
Proof.
  intros E. destruct (shakeHands_cases s conn w) as (evs & Ht & Hc).
  rewrite E in Ht, Hc. cbn [fst snd] in Ht, Hc. exists evs.
  destruct (conn_hello conn) as [err|cHello].
  { destruct Hc as (_ & Hr & _). discriminate. }
  cbn zeta in Hc. destruct (wrongPasscode s cHello).
  { destruct Hc as (_ & Hr & _). discriminate. }
  destruct Hc as (oks & Hoks & [(ip & err & _ & Hr)|(g0 & nx & Hnext & Hc)]).
  { discriminate. }
  destruct nx as [err|B]; [destruct Hc as (_ & Hr); discriminate|].
  destruct (fetchIPv4Octets B) as [err|o] eqn:Hfetch;
    [destruct Hc as (_ & Hr); discriminate|].
  cbn zeta in Hc. destruct Hc as (-> & Hr).
  destruct (conn_send conn _) eqn:Hsend; [discriminate|].
  injection Hr as -> ->.
  exists B, o. split; [exact Ht|]. project Hoks. auto.
Qed.

(** *** The handshake *)

(** C1.  A successful handshake in which [Next] returned the base [B], with
    octets [o], sends the client one hello whose [TUNIP] is [B]+4 and whose
    [TUNGateway] is [B]+3, and returns [B]+2 and [B]+1 to its caller; the
    sums are those of lines 295-299 and, whenever the last octet of [B] is
    at most 251, they are the addresses [B]+k as numbers. *)
Theorem shakeHands_success_addresses (s : Server) (conn : Conn) (w w' : World)
    (tunIP tunGateway : IP) :
  shakeHands s conn w = (inr (tunIP, tunGateway), w') ->
  exists evs B o hello,
    trace w' = trace w ++ evs /\
    nextCalls evs = [inr B] /\
    fetchIPv4Octets B = inr o /\
    sendResults evs = [(hello, None)] /\
    TUNIP hello = subnetPlus o 4 /\
    TUNGateway hello = subnetPlus o 3 /\
    tunIP = subnetPlus o 2 /\
    tunGateway = subnetPlus o 1 /\
    (0 <= lastOctet o <= 251 ->
     option_map octetsToZ (IP_To4 (TUNIP hello)) = Some (octetsToZ o + 4) /\
     option_map octetsToZ (IP_To4 (TUNGateway hello)) = Some (octetsToZ o + 3) /\
     option_map octetsToZ (IP_To4 tunIP) = Some (octetsToZ o + 2) /\
     option_map octetsToZ (IP_To4 tunGateway) = Some (octetsToZ o + 1)).
Proof.
  intros E.
  destruct (shakeHands_success s conn w w' tunIP tunGateway E)
    as (evs & B & o & Ht & Hnext & Hfetch & Hsent & -> & ->).
  exists evs, B, o. eexists. repeat (split; [eassumption || reflexivity|]).
  intros Hlast. cbn [TUNIP TUNGateway].
  repeat split; apply subnetPlus_no_carry; lia.
Qed.

(** C9.  On the success path the hello that is sent carries the zero value
    of [HandshakeStatus], whatever the status constants are: it reads as OK
    exactly when OK is encoded as zero. *)
Theorem shakeHands_success_status_zero (s : Server) (conn : Conn) (w w' : World)
    (tunIP tunGateway : IP) :
  shakeHands s conn w = (inr (tunIP, tunGateway), w') ->
  exists evs hello,
    trace w' = trace w ++ evs /\
    sentHellos evs = [hello] /\
    Status hello = HandshakeStatus_zero /\
    forall HandshakeStatusOK : HandshakeStatus,
      Status hello = HandshakeStatusOK <-> HandshakeStatusOK = 0.
Proof.
  intros E.
  destruct (shakeHands_success s conn w w' tunIP tunGateway E)
    as (evs & B & o & Ht & Hnext & Hfetch & Hsent & _ & _).
  exists evs. eexists. split; [exact Ht|].
  unfold sentHellos. rewrite Hsent. cbn.
  split; [reflexivity|]. split; [reflexivity|].
  intros ok. unfold HandshakeStatus_zero. split; intros H; now symmetry.
Qed.

(** C10.  The four addresses of a successful handshake keep the first three
    octets of the base and add 1, 2, 3 and 4 to its fourth octet modulo
    256; from a fourth octet of 252 on, the client address wraps around
    inside the last octet and the third octet does not take a carry. *)
Theorem shakeHands_octet_arithmetic (s : Server) (conn : Conn) (w w' : World)
    (tunIP tunGateway : IP) :
  shakeHands s conn w = (inr (tunIP, tunGateway), w') ->
  exists evs B o0 o1 o2 o3 hello,
    trace w' = trace w ++ evs /\
    nextCalls evs = [inr B] /\
    fetchIPv4Octets B = inr (o0, o1, o2, o3) /\
    sentHellos evs = [hello] /\
    IP_To4 tunGateway = Some (o0, o1, o2, (o3 + 1) mod 256) /\
    IP_To4 tunIP = Some (o0, o1, o2, (o3 + 2) mod 256) /\
    IP_To4 (TUNGateway hello) = Some (o0, o1, o2, (o3 + 3) mod 256) /\
    IP_To4 (TUNIP hello) = Some (o0, o1, o2, (o3 + 4) mod 256) /\
    (252 <= o3 <= 255 ->
     IP_To4 (TUNIP hello) = Some (o0, o1, o2, o3 + 4 - 256) /\
     option_map octetsToZ (IP_To4 (TUNIP hello))
     = Some (octetsToZ (o0, o1, o2, o3) + 4 - 256)).
Proof.
  intros E.
  destruct (shakeHands_success s conn w w' tunIP tunGateway E)
    as (evs & B & [[[o0 o1] o2] o3] & Ht & Hnext & Hfetch & Hsent & -> & ->).
  exists evs, B, o0, o1, o2, o3. eexists.
  split; [exact Ht|]. split; [exact Hnext|]. split; [exact Hfetch|].
  unfold sentHellos. rewrite Hsent. cbn [map fst TUNIP TUNGateway].
  split; [reflexivity|]. rewrite !subnetPlus_To4.
  repeat (split; [reflexivity|]).
  intros H3. cbn [TUNIP]. rewrite subnetPlus_wraps by lia.
  split; [reflexivity|]. cbn [option_map octetsToZ]. f_equal. lia.
Qed.

(** C3.  When the server has a passcode and the client's differs, the one
    hello sent is [Forbidden], an error is returned, no call is made on the
    pool and the pool is left as it was. *)
Theorem shakeHands_wrong_passcode (s : Server) (conn : Conn) (w : World)
    (cHello : ClientHello) :
  conn_hello conn = inr cHello ->
  cfg_Passcode (cfg s) <> "" ->
  Passcode cHello <> cfg_Passcode (cfg s) ->
  exists evs,
    trace (snd (shakeHands s conn w)) = trace w ++ evs /\
    sentHellos evs
    = [{| Status := HandshakeStatusForbidden; TUNIP := []; TUNGateway := [] |}] /\
    fst (shakeHands s conn w) = inl (errors_New "got wrong passcode from client") /\
    poolCalls evs = [] /\
    ipGen (snd (shakeHands s conn w)) = ipGen w.
Proof.
  intros Hhello Hset Hdiff.
  destruct (shakeHands_cases s conn w) as (evs & Ht & Hc).
  rewrite Hhello in Hc. cbn zeta in Hc.
  assert (Hwrong : wrongPasscode s cHello = true).
  { unfold wrongPasscode. apply String.eqb_neq in Hset, Hdiff.
    now rewrite Hset, Hdiff. }
  rewrite Hwrong in Hc. destruct Hc as (-> & Hr & Hpool).
  exists (([EvReadJSON (RemoteAddr conn) (inr cHello);
            EvLog Debug "Got client hello: %v" None])
          ++ helloEvents conn (set_Status ServerHello_zero HandshakeStatusForbidden)).
  split; [exact Ht|].
  assert (Hoks : forallb isReserveOk [] = true) by reflexivity.
  project Hoks. auto.
Qed.

(** C4.  Every handshake attempt hands exactly one hello to [WriteJSON],
    except when the client's hello cannot be decoded: then none is sent. *)
Theorem shakeHands_one_hello (s : Server) (conn : Conn) (w : World) :
  exists evs,
    trace (snd (shakeHands s conn w)) = trace w ++ evs /\
    List.length (sentHellos evs)
    = match conn_hello conn with inl _ => 0%nat | inr _ => 1%nat end.
Proof.
  destruct (shakeHands_cases s conn w) as (evs & Ht & Hc).
  exists evs. split; [exact Ht|].
  destruct (conn_hello conn) as [err|cHello].
  { destruct Hc as (-> & _). reflexivity. }
  cbn zeta in Hc. destruct (wrongPasscode s cHello).
  { destruct Hc as (-> & _).
    assert (Hoks : forallb isReserveOk [] = true) by reflexivity.
    project Hoks. reflexivity. }
  destruct Hc as (oks & Hoks & [(ip & err & -> & _)|(g0 & nx & _ & Hc)]).
  { project Hoks. reflexivity. }
  destruct nx as [err|B].
  { destruct Hc as (-> & _). project Hoks. reflexivity. }
  destruct (fetchIPv4Octets B) as [err|o].
  { destruct Hc as (-> & _). project Hoks. reflexivity. }
  cbn zeta in Hc. destruct Hc as (-> & _). project Hoks. reflexivity.
Qed.

(** C5.  A failed [Reserve] is answered with the one hello [BadRequest] and
    a failed [Next] with the one hello [NoFreeIPs]; either ends the
    handshake: the error is returned and the failed call is the last one
    made on the pool. *)
Theorem shakeHands_failure_status (s : Server) (conn : Conn) (w : World) :
  exists evs,
    trace (snd (shakeHands s conn w)) = trace w ++ evs /\
    (forall ip err,
       In (ip, err) (reserveFailures evs) ->
       sentHellos evs
       = [{| Status := HandshakeStatusBadRequest; TUNIP := []; TUNGateway := [] |}] /\
       fst (shakeHands s conn w)
       = inl (fmt_Errorf "error reserving IP %s: %w" [ArgIP ip; ArgErr err]) /\
       nextCalls evs = [] /\
       exists before, poolCalls evs = before ++ [EvReserve ip (Some err)]) /\
    (forall err,
       In (inl err) (nextCalls evs) ->
       sentHellos evs
       = [{| Status := HandshakeNoFreeIPs; TUNIP := []; TUNGateway := [] |}] /\
       fst (shakeHands s conn w)
       = inl (fmt_Errorf "error getting free subnet IP: %w" [ArgErr err]) /\
       exists before, poolCalls evs = before ++ [EvNext (inl err)]).
Proof.
  destruct (shakeHands_cases s conn w) as (evs & Ht & Hc).
  exists evs. split; [exact Ht|].
  assert (Hnil : forallb isReserveOk [] = true) by reflexivity.
  destruct (conn_hello conn) as [err0|cHello].
  { destruct Hc as (-> & _). split; intros; contradiction. }
  cbn zeta in Hc. destruct (wrongPasscode s cHello).
  { destruct Hc as (-> & _). project Hnil. split; intros; contradiction. }
  destruct Hc as (oks & Hoks & [(ip0 & err0 & -> & Hr)|(g0 & nx & _ & Hc)]).
  { project Hoks. split.
    - intros ip err [H|[]]. injection H as <- <-.
      repeat (split; [reflexivity || exact Hr|]). exists oks. reflexivity.
    - intros; contradiction. }
  destruct nx as [err0|B].
  { destruct Hc as (-> & Hr). project Hoks. split.
    - intros; contradiction.
    - intros err [H|[]]. injection H as <-.
      repeat (split; [reflexivity || exact Hr|]). exists oks. reflexivity. }
  destruct (fetchIPv4Octets B) as [err0|o].
  { destruct Hc as (-> & _). project Hoks.
    split; [intros; contradiction|]. intros err [H|[]]. discriminate. }
  cbn zeta in Hc. destruct Hc as (-> & _). project Hoks.
  split; [intros; contradiction|]. intros err [H|[]]. discriminate.
Qed.

(** C8.  When the block has been allocated and the send of the hello fails,
    [shakeHands] returns an error (the wrapped send error when the octets
    of the block could be split) and the pool is not rolled back: the
    successful [Next] is the last call made on the pool, and the pool is
    left in the state that call produced. *)
Theorem shakeHands_send_failure_no_rollback (s : Server) (conn : Conn)
    (w : World) (evs : list Event) (B : IP) (hello : ServerHello) (err : error) :
  trace (snd (shakeHands s conn w)) = trace w ++ evs ->
  nextCalls evs = [inr B] ->
  sendResults evs = [(hello, Some err)] ->
  (exists e, fst (shakeHands s conn w) = inl e) /\
  (forall o, fetchIPv4Octets B = inr o ->
     fst (shakeHands s conn w)
     = inl (fmt_Errorf "error finishing hadnshake: error sending server hello: %w"
              [ArgErr err])) /\
  (exists g0, IPGenerator_Next g0 = (ipGen (snd (shakeHands s conn w)), inr B)) /\
  (exists before, poolCalls evs = before ++ [EvNext (inr B)]).
Proof.
  intros Hevs Hnext Hsent.
  destruct (shakeHands_cases s conn w) as (evs' & Ht & Hc).
  rewrite Ht in Hevs. apply app_inv_head in Hevs. subst evs'.
  assert (Hnil : forallb isReserveOk [] = true) by reflexivity.
  destruct (conn_hello conn) as [err0|cHello].
  { destruct Hc as (-> & _). discriminate. }
  cbn zeta in Hc. destruct (wrongPasscode s cHello).
  { destruct Hc as (-> & _). revert Hnext. project Hnil. discriminate. }
  destruct Hc as (oks & Hoks & [(ip0 & err0 & -> & Hr)|(g0 & nx & Hg & Hc)]).
  { revert Hnext. project Hoks. discriminate. }
  destruct nx as [err0|B'].
  { destruct Hc as (-> & _). revert Hnext. project Hoks. discriminate. }
  destruct (fetchIPv4Octets B') as [err0|o'] eqn:Hfetch.
  - destruct Hc as (-> & Hr). revert Hnext Hsent. project Hoks.
    intros Hnext Hsent. injection Hnext as <-.
    split; [eexists; exact Hr|]. split; [intros o Ho; congruence|].
    split; [exists g0; exact Hg|]. exists oks. reflexivity.
  - cbn zeta in Hc. destruct Hc as (-> & Hr). revert Hnext Hsent. project Hoks.
    intros Hnext Hsent. injection Hnext as <-. injection Hsent as <- Hsend.
    rewrite Hsend in Hr.
    split; [eexists; exact Hr|]. split; [intros o Ho; exact Hr|].
    split; [exists g0; exact Hg|]. exists oks. reflexivity.
Qed.

(** *** [Serve] *)

Lemma Server_releaseSysPrivileges_run (suid : Z) (w : World) :
  Server_releaseSysPrivileges suid w
  = (tt, {| ipGen := ipGen w;
            trace := trace w
              ++ releaseEvents suid (os_sys os (trace w) (ReleaseSysPrivileges suid)) |}).
Proof.
  unfold Server_releaseSysPrivileges, sys, bind, log, emit, ret, releaseEvents.
  destruct (os_sys os (trace w) _); cbn; [|reflexivity].
  now rewrite <- app_assoc.
Qed.

Lemma setupToClearUp_run (w : World) :
  setupToClearUp w
  = (tt, {| ipGen := ipGen w;
            trace := trace w
              ++ setupToClearUpEvents (os_setupSysPrivileges os (trace w)) |}).
Proof.
  unfold setupToClearUp, setupSysPrivileges, bind, log, emit, ret,
    setupToClearUpEvents.
  destruct (os_setupSysPrivileges os (trace w)); cbn; [|reflexivity].
  now rewrite <- app_assoc.
Qed.

Lemma disableMasquerading_run (s : Server) (w : World) :
  disableMasquerading s w
  = (tt, {| ipGen := ipGen w;
            trace := trace w
              ++ disableMasqueradingEvents s
                   (os_sys os (trace w)
                      (DisableIPMasquerading (defaultNetworkInterface s))) |}).
Proof.
  unfold disableMasquerading, sys, bind, log, emit, ret, disableMasqueradingEvents.
  destruct (os_sys os (trace w) _); cbn; now rewrite <- app_assoc.
Qed.

Lemma revertIPv6_run (s : Server) (w : World) :
  revertIPv6 s w
  = (tt, {| ipGen := ipGen w;
            trace := trace w
              ++ revertIPv6Events s
                   (os_sys os (trace w)
                      (SetIPv6ForwardingValue (ipv6ForwardingVal s))) |}).
Proof.
  unfold revertIPv6, sys, bind, log, emit, ret, revertIPv6Events.
  destruct (os_sys os (trace w) _); cbn; now rewrite <- app_assoc.
Qed.

Lemma revertIPv4_run (s : Server) (w : World) :
  revertIPv4 s w
  = (tt, {| ipGen := ipGen w;
            trace := trace w
              ++ revertIPv4Events s
                   (os_sys os (trace w)
                      (SetIPv4ForwardingValue (ipv4ForwardingVal s))) |}).
Proof.
  unfold revertIPv4, sys, bind, log, emit, ret, revertIPv4Events.
  destruct (os_sys os (trace w) _); cbn; now rewrite <- app_assoc.
Qed.

Lemma acceptLoop_run (conns : list Conn) (e : error) (w : World) :
  acceptLoop conns e w
  = (fmt_Errorf "failed to accept client connection: %w" [ArgErr e],
     {| ipGen := ipGen w; trace := trace w ++ acceptEvents conns e |}).
Proof.
  revert w. induction conns as [|conn rest IH]; intros w.
  - reflexivity.
  - cbn [acceptLoop acceptEvents]. unfold bind, emit. rewrite IH. cbn.
    now rewrite <- !app_assoc.
Qed.

Lemma enableCalls_acceptEvents (conns : list Conn) (e : error) :
  enableCalls (acceptEvents conns e) = [].
Proof. induction conns as [|conn rest IH]; [reflexivity|exact IH]. Qed.

Lemma restoreCalls_acceptEvents (conns : list Conn) (e : error) :
  restoreCalls (acceptEvents conns e) = [].
Proof. induction conns as [|conn rest IH]; [reflexivity|exact IH]. Qed.

(** Every run of the closure of [Serve], path by path.  A failed enabling
    step is followed by the restoring closures deferred so far; a completed
    setup is followed by the accept loop and the whole teardown. *)
Lemma serveOnceBody_cases (s : Server) (l : Listener) (w : World) :
  exists evs,
    trace (snd (serveOnceBody s l w)) = trace w ++ evs /\
    ipGen (snd (serveOnceBody s l w)) = ipGen w /\
    ((exists err, evs = [EvSetupSysPrivileges (inl err)])
     \/
     (exists suid err rr,
        evs = [EvSetupSysPrivileges (inr suid);
               EvSys EnableIPv4Forwarding (Some err)]
              ++ releaseEvents suid rr)
     \/
     (exists suid err r4 rr,
        evs = [EvSetupSysPrivileges (inr suid);
               EvSys EnableIPv4Forwarding None;
               EvLog Info "Set IPv4 forwarding = 1" None;
               EvSys EnableIPv6Forwarding (Some err)]
              ++ revertIPv4Events s r4 ++ releaseEvents suid rr)
     \/
     (exists suid err r6 r4 rr,
        evs = [EvSetupSysPrivileges (inr suid);
               EvSys EnableIPv4Forwarding None;
               EvLog Info "Set IPv4 forwarding = 1" None;
               EvSys EnableIPv6Forwarding None;
               EvLog Info "Set IPv6 forwarding = 1" None;
               EvSys (EnableIPMasquerading (defaultNetworkInterface s)) (Some err)]
              ++ revertIPv6Events s r6 ++ revertIPv4Events s r4
              ++ releaseEvents suid rr)
     \/
     (exists suid rr1 rp rm r6 r4 rr,
        evs = setupEvents s suid ++ releaseEvents suid rr1
              ++ acceptEvents (lis_conns l) (lis_err l)
              ++ teardownEvents s suid rp rm r6 r4 rr /\
        fst (serveOnceBody s l w)
        = (fmt_Errorf "failed to accept client connection: %w" [ArgErr (lis_err l)],
           set_lis s (Some l)))).
Proof.
  destruct (serveOnceBody s l w) as [r w'] eqn:E. cbn [fst snd].
  unfold serveOnceBody, setupSysPrivileges in E. unfold bind at 1 in E.
  destruct (os_setupSysPrivileges os (trace w)) as [err|suid].
  { injection E as <- <-. eexists. split; [reflexivity|]. split; [reflexivity|].
    left. now exists err. }
  unfold defer at 1, bind at 1 2, sys at 1 in E.
  destruct (os_sys os _ EnableIPv4Forwarding) as [err|].
  { unfold bind, ret in E. rewrite Server_releaseSysPrivileges_run in E.
    injection E as <- <-. cbn [trace ipGen].
    eexists. split; [rewrite <- !app_assoc; reflexivity|]. split; [reflexivity|].
    right. left. do 3 eexists. reflexivity. }
  unfold log at 1, emit at 1, defer at 1, bind at 1 2 3, sys at 1 in E.
  cbn [trace ipGen] in E.
  destruct (os_sys os _ EnableIPv6Forwarding) as [err|].
  { unfold bind, ret in E.
    rewrite revertIPv4_run, Server_releaseSysPrivileges_run in E.
    injection E as <- <-. cbn [trace ipGen].
    eexists. split; [rewrite <- !app_assoc; reflexivity|]. split; [reflexivity|].
    right. right. left. do 4 eexists. reflexivity. }
  unfold log at 1, emit at 1, defer at 1, bind at 1 2 3, sys at 1 in E.
  cbn [trace ipGen] in E.
  destruct (os_sys os _ (EnableIPMasquerading _)) as [err|].
  { unfold bind, ret in E.
    rewrite revertIPv6_run, revertIPv4_run, Server_releaseSysPrivileges_run in E.
    injection E as <- <-. cbn [trace ipGen].
    eexists. split; [rewrite <- !app_assoc; reflexivity|]. split; [reflexivity|].
    right. right. right. left. do 5 eexists. reflexivity. }
  unfold log, emit, defer, bind, ret in E. cbn [trace ipGen] in E.
  rewrite Server_releaseSysPrivileges_run, acceptLoop_run, setupToClearUp_run,
    disableMasquerading_run, revertIPv6_run, revertIPv4_run,
    Server_releaseSysPrivileges_run in E.
  injection E as <- <-. cbn [trace ipGen].
  eexists. split; [rewrite <- !app_assoc; reflexivity|]. split; [reflexivity|].
  right. right. right. right. do 7 eexists.
  split; [|reflexivity]. unfold teardownEvents, setupEvents.
  rewrite <- ?app_assoc. reflexivity.
Qed.

Lemma enableCalls_app (a b : list Event) :
  enableCalls (a ++ b) = enableCalls a ++ enableCalls b.
Proof. apply pick_app. Qed.

Lemma restoreCalls_app (a b : list Event) :
  restoreCalls (a ++ b) = restoreCalls a ++ restoreCalls b.
Proof. apply pick_app. Qed.

(** Computes the enabling and restoring calls of an explicit run. *)
Ltac project_calls :=
  unfold teardownEvents, setupEvents, releaseEvents, setupToClearUpEvents,
    disableMasqueradingEvents, revertIPv6Events, revertIPv4Events;
  rewrite ?enableCalls_app, ?restoreCalls_app;
  rewrite ?enableCalls_acceptEvents, ?restoreCalls_acceptEvents;
  cbv [enableCalls restoreCalls pick app map fst snd].

Lemma Serve_first (s : Server) (l : Listener) (w : World) :
  serveOnce s = false ->
  Serve s l w
  = (fst (fst (serveOnceBody s l w)),
     set_serveOnce (snd (fst (serveOnceBody s l w))) true,
     snd (serveOnceBody s l w)).
Proof.
  intros H. unfold Serve, bind, ret. rewrite H.
  now destruct (serveOnceBody s l w) as [[e s'] w'].
Qed.

Lemma Serve_again (s : Server) (l : Listener) (w : World) :
  serveOnce s = true ->
  Serve s l w = (errors_New "already serving", s, w).
Proof. intros H. unfold Serve, ret. now rewrite H. Qed.

(** C6.  Whatever the first call of [Serve] did, a second call on the same
    server returns "already serving" and changes neither the server nor the
    world; over both calls the enabling calls are a beginning of the one
    sequence IPv4 forwarding, IPv6 forwarding, masquerading. *)
Theorem Serve_twice (s : Server) (l1 l2 : Listener) (w : World) :
  let first := Serve s l1 w in
  let second := Serve (snd (fst first)) l2 (snd first) in
  fst (fst second) = errors_New "already serving" /\
  snd (fst second) = snd (fst first) /\
  snd second = snd first /\
  exists evs n,
    trace (snd second) = trace w ++ evs /\
    map fst (enableCalls evs)
    = firstn n [EnableIPv4Forwarding; EnableIPv6Forwarding;
                EnableIPMasquerading (defaultNetworkInterface s)].
Proof.
  cbv zeta. destruct (serveOnce s) eqn:Honce.
  - rewrite (Serve_again s l1 w Honce). cbn [fst snd].
    rewrite (Serve_again s l2 w Honce). cbn [fst snd].
    repeat (split; [reflexivity|]). exists [], 0%nat.
    split; [now rewrite app_nil_r|reflexivity].
  - rewrite (Serve_first s l1 w Honce). cbn [fst snd].
    rewrite Serve_again by reflexivity. cbn [fst snd].
    repeat (split; [reflexivity|]).
    destruct (serveOnceBody_cases s l1 w) as (evs & Ht & _ & Hc).
    exists evs.
    destruct Hc as [(err & ->)|[(suid & err & rr & ->)|[(suid & err & r4 & rr & ->)
      |[(suid & err & r6 & r4 & rr & ->)|(suid & rr1 & rp & rm & r6 & r4 & rr & -> & _)]]]].
    + exists 0%nat. split; [exact Ht|reflexivity].
    + exists 1%nat. split; [exact Ht|]. project_calls. now destruct rr.
    + exists 2%nat. split; [exact Ht|]. project_calls. now destruct r4, rr.
    + exists 3%nat. split; [exact Ht|]. project_calls. now destruct r6, r4, rr.
    + exists 3%nat. split; [exact Ht|]. project_calls.
      now destruct rr1, rp, rm, r6, r4, rr.
Qed.

(** C7.  After a completed global setup the run of [Serve] ends with the
    teardown, which calls, in this order and whatever each call answers,
    the disabling of masquerading, the restoring of the IPv6 forwarding
    value and the restoring of the IPv4 forwarding value; no restoring call
    comes earlier, and every failed one is logged. *)
Theorem Serve_teardown_reverse_order (s : Server) (l : Listener) (w : World)
    (evs : list Event) :
  trace (snd (Serve s l w)) = trace w ++ evs ->
  enableCalls evs
  = [(EnableIPv4Forwarding, None); (EnableIPv6Forwarding, None);
     (EnableIPMasquerading (defaultNetworkInterface s), None)] ->
  exists body suid rp rm r6 r4 rr,
    evs = body ++ teardownEvents s suid rp rm r6 r4 rr /\
    restoreCalls body = [] /\
    restoreCalls evs
    = [(DisableIPMasquerading (defaultNetworkInterface s), rm);
       (SetIPv6ForwardingValue (ipv6ForwardingVal s), r6);
       (SetIPv4ForwardingValue (ipv4ForwardingVal s), r4)] /\
    (forall err, rm = Some err ->
       In (EvLog Error "Error disabling IP masquerading for %s" (Some err)) evs) /\
    (forall err, r6 = Some err ->
       In (EvLog Error "Error reverting IPv6 forwarding" (Some err)) evs) /\
    (forall err, r4 = Some err ->
       In (EvLog Error "Error reverting IPv4 forwarding" (Some err)) evs).
Proof.
  intros Hevs Hen. destruct (serveOnce s) eqn:Honce.
  { rewrite (Serve_again s l w Honce) in Hevs. cbn [snd] in Hevs.
    rewrite <- (app_nil_r (trace w)) in Hevs at 1.
    apply app_inv_head in Hevs. subst evs. discriminate. }
  rewrite (Serve_first s l w Honce) in Hevs. cbn [snd] in Hevs.
  destruct (serveOnceBody_cases s l w) as (evs' & Ht & _ & Hc).
  rewrite Ht in Hevs. apply app_inv_head in Hevs. subst evs'.
  destruct Hc as [(err & ->)|[(suid & err & rr & ->)|[(suid & err & r4 & rr & ->)
    |[(suid & err & r6 & r4 & rr & ->)|(suid & rr1 & rp & rm & r6 & r4 & rr & -> & _)]]]].
  - discriminate.
  - revert Hen. project_calls. destruct rr; discriminate.
  - revert Hen. project_calls. destruct r4, rr; discriminate.
  - revert Hen. project_calls. destruct r6, r4, rr; discriminate.
  - clear Hen.
    exists (setupEvents s suid ++ releaseEvents suid rr1
            ++ acceptEvents (lis_conns l) (lis_err l)).
    exists suid, rp, rm, r6, r4, rr.
    split; [now rewrite <- !app_assoc|].
    split; [project_calls; now destruct rr1|].
    split; [project_calls; now destruct rr1, rp, rm, r6, r4, rr|].
    repeat split; intros err ->;
      unfold teardownEvents, disableMasqueradingEvents, revertIPv6Events,
        revertIPv4Events;
      rewrite !in_app_iff; cbn [In]; intuition.
Qed.

(** *** [serveConn] *)

Lemma closeConn_run (conn : Conn) (w : World) :
  closeConn conn w
  = (tt, {| ipGen := ipGen w;
            trace := trace w
              ++ closeConnEvents conn
                   (os_sys os (trace w) (Conn_Close (RemoteAddr conn))) |}).
Proof.
  unfold closeConn, sys, bind, log, emit, ret, closeConnEvents.
  destruct (os_sys os (trace w) _); cbn; [|reflexivity].
  now rewrite <- app_assoc.
Qed.

Lemma closeTUN_run (tun : string) (w : World) :
  closeTUN tun w
  = (tt, {| ipGen := ipGen w;
            trace := trace w
              ++ closeTUNEvents tun (os_sys os (trace w) (TUN_Close tun)) |}).
Proof.
  unfold closeTUN, sys, bind, log, emit, ret, closeTUNEvents.
  destruct (os_sys os (trace w) _); cbn; [|reflexivity].
  now rewrite <- app_assoc.
Qed.

Lemma isHandshakeEvent_reserveOk (oks : list Event) :
  forallb isReserveOk oks = true -> forallb isHandshakeEvent oks = true.
Proof.
  induction oks as [|e oks IH]; cbn; [reflexivity|].
  intros H. apply andb_true_iff in H as [He Hoks].
  destruct e; try discriminate. cbn. now apply IH.
Qed.

Lemma isHandshakeEvent_helloEvents (conn : Conn) (h : ServerHello) :
  forallb isHandshakeEvent (helloEvents conn h) = true.
Proof. unfold helloEvents. now destruct (conn_send conn h). Qed.

(** A handshake adds handshake events only. *)
Lemma shakeHands_events (s : Server) (conn : Conn) (w : World) :
  exists evs,
    trace (snd (shakeHands s conn w)) = trace w ++ evs /\
    forallb isHandshakeEvent evs = true.
Proof.
  destruct (shakeHands_cases s conn w) as (evs & Ht & Hc).
  exists evs. split; [exact Ht|].
  destruct (conn_hello conn) as [err|cHello].
  { destruct Hc as (-> & _). reflexivity. }
  cbn zeta in Hc. destruct (wrongPasscode s cHello).
  { destruct Hc as (-> & _).
    now rewrite forallb_app, isHandshakeEvent_helloEvents. }
  destruct Hc as (oks & Hoks & [(ip & err & -> & _)|(g0 & nx & _ & Hc)]).
  { now rewrite !forallb_app, isHandshakeEvent_helloEvents,
      (isHandshakeEvent_reserveOk _ Hoks). }
  destruct nx as [err|B].
  { destruct Hc as (-> & _).
    now rewrite !forallb_app, isHandshakeEvent_helloEvents,
      (isHandshakeEvent_reserveOk _ Hoks). }
  destruct (fetchIPv4Octets B) as [err|o].
  { destruct Hc as (-> & _).
    now rewrite !forallb_app, isHandshakeEvent_helloEvents,
      (isHandshakeEvent_reserveOk _ Hoks). }
  cbn zeta in Hc. destruct Hc as (-> & _).
  now rewrite !forallb_app, (isHandshakeEvent_reserveOk _ Hoks).
Qed.

Lemma relayPrivileges_handshake (held : bool) (hs rest : list Event) :
  forallb isHandshakeEvent hs = true ->
  relayPrivileges held (hs ++ rest) = relayPrivileges held rest.
Proof.
  induction hs as [|e hs IH]; cbn [app forallb]; [reflexivity|].
  intros H. apply andb_true_iff in H as [He Hhs].
  destruct e; try discriminate; cbn; now apply IH.
Qed.

(** In every run of [serveConn], whatever the pool, the client and the
    operating system do: when the relay tasks are started, privileges are
    held, unless taking them back just before (line 208) failed. *)
Lemma serveConn_relay_privileged (s : Server) (conn : Conn) (w : World)
    (evs : list Event) :
  trace (snd (serveConn s conn w)) = trace w ++ evs ->
  relayPrivileges false evs = []
  \/ relayPrivileges false evs = [true; true]
  \/ exists err,
       In (EvLog Error "Failed to setup system privileges to clear up" (Some err))
          evs.
Proof.
  intros Hevs.
  destruct (shakeHands_events s conn w) as (hs & Hhs & Hneutral).
  destruct (serveConn s conn w) as [u w'] eqn:E. cbn [snd] in Hevs.
  unfold serveConn, defer in E. unfold bind at 1 2 in E.
  destruct (shakeHands s conn w) as [[err|[tunIP tunGateway]] w1];
    cbn [snd] in Hhs.
  { unfold log, emit, bind, ret in E. rewrite closeConn_run in E.
    injection E as _ <-. cbn [trace] in Hevs. rewrite Hhs in Hevs.
    rewrite <- !app_assoc in Hevs. apply app_inv_head in Hevs. subst evs.
    left. rewrite relayPrivileges_handshake by assumption.
    unfold closeConnEvents. now destruct (os_sys os _ _). }
  unfold bind at 1 in E. unfold setupSysPrivileges at 1 in E.
  destruct (os_setupSysPrivileges os (trace w1)) as [err|suid].
  { unfold log, emit, bind, ret in E. rewrite closeConn_run in E.
    injection E as _ <-. cbn [trace] in Hevs. rewrite Hhs in Hevs.
    rewrite <- !app_assoc in Hevs. apply app_inv_head in Hevs. subst evs.
    left. rewrite relayPrivileges_handshake by assumption.
    unfold closeConnEvents. now destruct (os_sys os _ _). }
  unfold bind at 1 2 in E. unfold newTUNDevice in E. cbn [trace ipGen] in E.
  destruct (os_newTUNDevice os _) as [err|tun].
  { unfold log, emit, bind, ret in E.
    rewrite Server_releaseSysPrivileges_run, closeConn_run in E.
    injection E as _ <-. cbn [trace] in Hevs. rewrite Hhs in Hevs.
    rewrite <- !app_assoc in Hevs. apply app_inv_head in Hevs. subst evs.
    left. rewrite relayPrivileges_handshake by assumption.
    unfold closeConnEvents, releaseEvents. cbn [trace ipGen].
    repeat match goal with
           | |- context [match ?r with Some _ => _ | None => _ end] =>
               destruct r
           end; reflexivity. }
  unfold bind at 1 2 3 in E. unfold log at 1, emit at 1, sys at 1 in E.
  cbn [trace ipGen] in E.
  destruct (os_sys os _ (SetupTUN _ _ _ _ _)) as [err|].
  { unfold log, emit, bind, ret in E.
    rewrite closeTUN_run, Server_releaseSysPrivileges_run, closeConn_run in E.
    injection E as _ <-. cbn [trace] in Hevs. rewrite Hhs in Hevs.
    rewrite <- !app_assoc in Hevs. apply app_inv_head in Hevs. subst evs.
    left. rewrite relayPrivileges_handshake by assumption.
    unfold closeConnEvents, closeTUNEvents, releaseEvents. cbn [trace ipGen].
    repeat match goal with
           | |- context [match ?r with Some _ => _ | None => _ end] =>
               destruct r
           end; reflexivity. }
  unfold bind at 1 in E. rewrite Server_releaseSysPrivileges_run in E.
  unfold bind at 1 in E. unfold setupSysPrivileges in E. cbn [trace ipGen] in E.
  match type of E with
  | context [releaseEvents suid ?r] => generalize dependent r; intros rr1 E
  end.
  destruct (os_setupSysPrivileges os _) as [err|suid2];
    unfold log, emit, bind, ret in E; cbn [trace ipGen] in E;
    rewrite closeTUN_run in E;
    match type of E with
    | context [closeTUNEvents tun ?r] => generalize dependent r; intros rt E
    end;
    rewrite Server_releaseSysPrivileges_run in E;
    match type of E with
    | context [releaseEvents suid (os_sys ?o ?t ?c)] =>
        generalize dependent (os_sys o t c); intros rr2 E
    end;
    rewrite closeConn_run in E;
    match type of E with
    | context [closeConnEvents conn ?r] => generalize dependent r; intros rc E
    end;
    injection E as _ <-; cbn [trace] in Hevs; rewrite Hhs in Hevs;
    rewrite <- !app_assoc in Hevs; apply app_inv_head in Hevs; subst evs.
  - right. right. exists err. rewrite !in_app_iff. cbn [In]. intuition.
  - right. left. rewrite relayPrivileges_handshake by assumption.
    unfold closeConnEvents, closeTUNEvents, releaseEvents.
    destruct rr1, rt, rr2, rc; reflexivity.
Qed.

(** ** Further properties of [server.go] *)

(** *** More of the handshake *)

(** X1.  When the block that [Next] returned cannot be split into octets,
    the one hello sent is [InternalError] without addresses, the splitting
    error is returned wrapped, and the block stays allocated: the
    successful [Next] is the last call on the pool. *)
Theorem shakeHands_unsplittable_block (s : Server) (conn : Conn) (w : World)
    (evs : list Event) (B : IP) (err : error) :
  trace (snd (shakeHands s conn w)) = trace w ++ evs ->
  nextCalls evs = [inr B] ->
  fetchIPv4Octets B = inl err ->
  sentHellos evs
  = [{| Status := HandshakeStatusInternalError; TUNIP := []; TUNGateway := [] |}] /\
  fst (shakeHands s conn w)
  = inl (fmt_Errorf "error breaking IP into octets: %w" [ArgErr err]) /\
  (exists g0, IPGenerator_Next g0 = (ipGen (snd (shakeHands s conn w)), inr B)) /\
  (exists before, poolCalls evs = before ++ [EvNext (inr B)]).
Proof.
  intros Hevs Hnext Hfetch.
  destruct (shakeHands_cases s conn w) as (evs' & Ht & Hc).
  rewrite Ht in Hevs. apply app_inv_head in Hevs. subst evs'.
  assert (Hnil : forallb isReserveOk [] = true) by reflexivity.
  destruct (conn_hello conn) as [err0|cHello].
  { destruct Hc as (-> & _). discriminate. }
  cbn zeta in Hc. destruct (wrongPasscode s cHello).
  { destruct Hc as (-> & _). revert Hnext. project Hnil. discriminate. }
  destruct Hc as (oks & Hoks & [(ip0 & err0 & -> & Hr)|(g0 & nx & Hg & Hc)]).
  { revert Hnext. project Hoks. discriminate. }
  destruct nx as [err0|B'].
  { destruct Hc as (-> & _). revert Hnext. project Hoks. discriminate. }
  destruct (fetchIPv4Octets B') as [err0|o'] eqn:Hfetch'.
  - destruct Hc as (-> & Hr). revert Hnext. project Hoks.
    intros Hnext. injection Hnext as <-.
    rewrite Hfetch in Hfetch'. injection Hfetch' as <-.
    split; [reflexivity|]. split; [exact Hr|].
    split; [exists g0; exact Hg|]. exists oks. reflexivity.
  - cbn zeta in Hc. destruct Hc as (-> & _). revert Hnext. project Hoks.
    intros Hnext. injection Hnext as <-. congruence.
Qed.

(** X2.  The pool is consulted exactly when the client's hello was decoded
    and passed the passcode check; in the other runs the pool is left as it
    was. *)
Theorem shakeHands_pool_gate (s : Server) (conn : Conn) (w : World)
    (evs : list Event) :
  trace (snd (shakeHands s conn w)) = trace w ++ evs ->
  (poolCalls evs = [] <->
   match conn_hello conn with
   | inl _ => True
   | inr cHello => wrongPasscode s cHello = true
   end) /\
  (poolCalls evs = [] -> ipGen (snd (shakeHands s conn w)) = ipGen w).
Proof.
  intros Hevs.
  destruct (shakeHands_cases s conn w) as (evs' & Ht & Hc).
  rewrite Ht in Hevs. apply app_inv_head in Hevs. subst evs'.
  assert (Hnil : forallb isReserveOk [] = true) by reflexivity.
  assert (Hne : forall (l : list Event) (e : Event), l ++ [e] <> [])
    by (intros l e H; destruct l; discriminate).
  destruct (conn_hello conn) as [err0|cHello].
  { destruct Hc as (-> & _ & Hg). split; [split; auto|auto]. }
  cbn zeta in Hc. destruct (wrongPasscode s cHello).
  { destruct Hc as (-> & _ & Hg). project Hnil. split; [split; auto|auto]. }
  destruct Hc as (oks & Hoks & [(ip0 & err0 & -> & Hr)|(g0 & nx & Hg & Hc)]).
  { project Hoks. rewrite ?app_nil_r.
    split; [split; [intros H; now apply Hne in H|discriminate]|].
    intros H. now apply Hne in H. }
  destruct nx as [err0|B].
  { destruct Hc as (-> & _). project Hoks. rewrite ?app_nil_r.
    split; [split; [intros H; now apply Hne in H|discriminate]|].
    intros H. now apply Hne in H. }
  destruct (fetchIPv4Octets B) as [err0|o].
  { destruct Hc as (-> & _). project Hoks. rewrite ?app_nil_r.
    split; [split; [intros H; now apply Hne in H|discriminate]|].
    intros H. now apply Hne in H. }
  cbn zeta in Hc. destruct Hc as (-> & _). project Hoks.
  split; [split; [intros H; now apply Hne in H|discriminate]|].
  intros H. now apply Hne in H.
Qed.

(** X3.  Addresses are sent only for an allocated block: every hello that a
    handshake sends either carries no address at all, or is the final hello
    built from the octets of the base that [Next] returned. *)
Theorem shakeHands_addresses_need_block (s : Server) (conn : Conn) (w : World)
    (evs : list Event) (h : ServerHello) :
  trace (snd (shakeHands s conn w)) = trace w ++ evs ->
  In h (sentHellos evs) ->
  (TUNIP h = [] /\ TUNGateway h = [])
  \/ exists B o,
       nextCalls evs = [inr B] /\
       fetchIPv4Octets B = inr o /\
       h = {| Status := HandshakeStatus_zero;
              TUNIP := subnetPlus o 4;
              TUNGateway := subnetPlus o 3 |}.
Proof.
  intros Hevs.
  destruct (shakeHands_cases s conn w) as (evs' & Ht & Hc).
  rewrite Ht in Hevs. apply app_inv_head in Hevs. subst evs'.
  assert (Hnil : forallb isReserveOk [] = true) by reflexivity.
  destruct (conn_hello conn) as [err0|cHello].
  { destruct Hc as (-> & _). intros []. }
  cbn zeta in Hc. destruct (wrongPasscode s cHello).
  { destruct Hc as (-> & _). project Hnil. intros [<-|[]]. now left. }
  destruct Hc as (oks & Hoks & [(ip0 & err0 & -> & Hr)|(g0 & nx & Hg & Hc)]).
  { project Hoks. intros [<-|[]]. now left. }
  destruct nx as [err0|B].
  { destruct Hc as (-> & _). project Hoks. intros [<-|[]]. now left. }
  destruct (fetchIPv4Octets B) as [err0|o] eqn:Hfetch.
  { destruct Hc as (-> & _). project Hoks. intros [<-|[]]. now left. }
  cbn zeta in Hc. destruct Hc as (-> & _). project Hoks. intros [<-|[]].
  right. exists B, o. auto.
Qed.

Lemma reserveCalls_app (a b : list Event) :
  reserveCalls (a ++ b) = reserveCalls a ++ reserveCalls b.
Proof. apply pick_app. Qed.

Lemma reserveCalls_helloEvents (conn : Conn) (h : ServerHello) :
  reserveCalls (helloEvents conn h) = [].
Proof. unfold helloEvents. now destruct (conn_send conn h). Qed.

Lemma isReserveOk_map (ips : list IP) :
  forallb isReserveOk (map (fun ip => EvReserve ip None) ips) = true.
Proof. induction ips as [|ip ips IH]; [reflexivity|exact IH]. Qed.

Lemma reserveCalls_map (ips : list IP) :
  reserveCalls (map (fun ip => EvReserve ip None) ips) = ips.
Proof.
  induction ips as [|ip ips IH]; [reflexivity|].
  cbn. f_equal. exact IH.
Qed.

(** The reservation loop reserves the declared addresses in their order and
    stops at the first failure; it never calls [Next]. *)
Lemma reserveUnavailable_calls (conn : Conn) (h : ServerHello) (ips : list IP)
    (w : World) :
  exists n evsL,
    trace (snd (reserveUnavailable conn h ips w)) = trace w ++ evsL /\
    reserveCalls evsL = firstn n ips /\
    match fst (reserveUnavailable conn h ips w) with
    | None => evsL = map (fun ip => EvReserve ip None) ips
    | Some _ => nextCalls evsL = []
    end.
Proof.
  revert w. induction ips as [|ip rest IH]; intros w.
  - exists 0%nat, []. cbn. rewrite app_nil_r. auto.
  - cbn [reserveUnavailable]. unfold bind, Reserve.
    destruct (IPGenerator_Reserve (ipGen w) ip) as [g [err|]].
    + rewrite writeHelloOrLog_run. cbn [fst snd trace].
      exists 1%nat. eexists.
      split; [rewrite <- app_assoc; reflexivity|].
      change ([EvReserve ip (Some err)] ++ ?l) with (EvReserve ip (Some err) :: l).
      split.
      * change (reserveCalls (EvReserve ip (Some err) :: ?l))
          with (ip :: reserveCalls l).
        now rewrite reserveCalls_helloEvents.
      * change (nextCalls (EvReserve ip (Some err) :: ?l)) with (nextCalls l).
        apply nextCalls_helloEvents.
    + destruct (IH {| ipGen := g; trace := trace w ++ [EvReserve ip None] |})
        as (n & evsL & Ht & Hcalls & Hres).
      exists (S n), (EvReserve ip None :: evsL).
      split; [rewrite Ht; cbn; now rewrite <- app_assoc|].
      split; [cbn [firstn]; change (reserveCalls (EvReserve ip None :: evsL))
                with (ip :: reserveCalls evsL); now rewrite Hcalls|].
      destruct (fst (reserveUnavailable conn h rest _)).
      * exact Hres.
      * cbn [map]. now rewrite Hres.
Qed.

(** What [shakeHands] does after the reservation loop, once the hello is
    decoded and the passcode accepted: nothing when the loop failed, one
    call of [Next] and no further reservation otherwise. *)
Lemma shakeHands_after_loop (s : Server) (conn : Conn) (w : World)
    (cHello : ClientHello) :
  conn_hello conn = inr cHello ->
  wrongPasscode s cHello = false ->
  let pre := [EvReadJSON (RemoteAddr conn) (inr cHello);
              EvLog Debug "Got client hello: %v" None] in
  let L := reserveUnavailable conn ServerHello_zero (UnavailablePrivateIPs cHello)
             {| ipGen := ipGen w; trace := trace w ++ pre |} in
  exists tailEvs,
    trace (snd (shakeHands s conn w)) = trace (snd L) ++ tailEvs /\
    reserveCalls tailEvs = [] /\
    match fst L with
    | Some _ =>
        tailEvs = [] /\ ipGen (snd (shakeHands s conn w)) = ipGen (snd L)
    | None =>
        ipGen (snd (shakeHands s conn w))
        = fst (IPGenerator_Next (ipGen (snd L))) /\
        poolCalls tailEvs = [EvNext (snd (IPGenerator_Next (ipGen (snd L))))] /\
        nextCalls tailEvs = [snd (IPGenerator_Next (ipGen (snd L)))]
    end.
Proof.
  intros Hhello Hpass. cbv zeta.
  destruct (shakeHands s conn w) as [r w'] eqn:E. cbn [fst snd].
  unfold shakeHands, ReadJSON, log in E. rewrite Hhello in E.
  unfold bind at 1 2 3 in E. unfold emit, ret in E. cbn in E.
  rewrite Hpass in E. unfold bind at 1 in E.
  rewrite <- app_assoc in E. cbn [app] in E.
  destruct (reserveUnavailable conn ServerHello_zero _ _) as [[e|] w2];
    cbn [fst snd].
  - injection E as <- <-. exists []. rewrite app_nil_r. auto.
  - unfold bind, Next, ret in E.
    assert (Hnil : forallb isReserveOk [] = true) by reflexivity.
    destruct (IPGenerator_Next (ipGen w2)) as [g [err|subnet]]; cbn [fst snd].
    + rewrite writeHelloOrLog_run in E. cbn in E. injection E as <- <-.
      cbn [trace ipGen]. eexists.
      split; [rewrite <- app_assoc; reflexivity|].
      unfold reserveCalls. rewrite pick_app. fold reserveCalls.
      rewrite reserveCalls_helloEvents. project Hnil. auto.
    + destruct (fetchIPv4Octets subnet) as [err|o].
      * rewrite writeHelloOrLog_run in E. cbn in E. injection E as <- <-.
        cbn [trace ipGen]. eexists.
        split; [rewrite <- app_assoc; reflexivity|].
        unfold reserveCalls. rewrite pick_app. fold reserveCalls.
        rewrite reserveCalls_helloEvents. project Hnil. auto.
      * unfold WriteJSON, bind, emit, ret in E. cbn in E.
        destruct (conn_send conn _); injection E as <- <-; cbn [trace ipGen];
          (eexists; split; [rewrite <- app_assoc; reflexivity|]);
          cbn; auto.
Qed.

(** X4.  The addresses handed to [Reserve] are a beginning of the client's
    list, in its order; and whenever [Next] is called, the calls made on
    the pool are one successful [Reserve] for every declared address, in
    the declared order, followed by that single [Next]. *)
Theorem shakeHands_reserves_in_order (s : Server) (conn : Conn) (w : World)
    (evs : list Event) (cHello : ClientHello) :
  conn_hello conn = inr cHello ->
  trace (snd (shakeHands s conn w)) = trace w ++ evs ->
  (exists n, reserveCalls evs = firstn n (UnavailablePrivateIPs cHello)) /\
  (forall r, In r (nextCalls evs) ->
     poolCalls evs
     = map (fun ip => EvReserve ip None) (UnavailablePrivateIPs cHello)
       ++ [EvNext r]).
Proof.
  intros Hhello Hevs. destruct (wrongPasscode s cHello) eqn:Hpass.
  - destruct (shakeHands_cases s conn w) as (evs' & Ht & Hc).
    rewrite Ht in Hevs. apply app_inv_head in Hevs. subst evs'.
    rewrite Hhello in Hc. cbn zeta in Hc. rewrite Hpass in Hc.
    destruct Hc as (-> & _).
    assert (Hnil : forallb isReserveOk [] = true) by reflexivity.
    split.
    + exists 0%nat. rewrite reserveCalls_app, reserveCalls_helloEvents.
      reflexivity.
    + project Hnil. intros r [].
  - destruct (shakeHands_after_loop s conn w cHello Hhello Hpass)
      as (tailEvs & Ht & Htail & Hc).
    cbv zeta in Ht, Hc.
    destruct (reserveUnavailable_calls conn ServerHello_zero
                (UnavailablePrivateIPs cHello)
                {| ipGen := ipGen w;
                   trace := trace w
                     ++ [EvReadJSON (RemoteAddr conn) (inr cHello);
                         EvLog Debug "Got client hello: %v" None] |})
      as (n & evsL & HtL & Hcalls & Hres).
    rewrite HtL in Ht. cbn [trace] in Ht. rewrite Ht in Hevs.
    rewrite <- !app_assoc in Hevs. apply app_inv_head in Hevs. subst evs.
    split.
    + exists n. rewrite !reserveCalls_app, Hcalls, Htail.
      cbn. now rewrite app_nil_r.
    + intros r. rewrite !nextCalls_app, !poolCalls_app.
      destruct (fst (reserveUnavailable conn ServerHello_zero _ _)).
      * destruct Hc as (-> & _). rewrite Hres. intros [].
      * destruct Hc as (_ & Hpool & Hnext). subst evsL.
        rewrite (nextCalls_reserveOk _ (isReserveOk_map _)).
        rewrite (poolCalls_reserveOk _ (isReserveOk_map _)).
        rewrite Hnext, Hpool. cbn. intros [<-|[]]. reflexivity.
Qed.

(** The pool that the reservation loop leaves behind, and whether the loop
    failed, depend on the pool it started from and on nothing else. *)
Lemma reserveUnavailable_pool (c1 c2 : Conn) (h1 h2 : ServerHello)
    (ips : list IP) (w1 w2 : World) :
  ipGen w1 = ipGen w2 ->
  ipGen (snd (reserveUnavailable c1 h1 ips w1))
  = ipGen (snd (reserveUnavailable c2 h2 ips w2)) /\
  (fst (reserveUnavailable c1 h1 ips w1) = None <->
   fst (reserveUnavailable c2 h2 ips w2) = None).
Proof.
  revert w1 w2. induction ips as [|ip rest IH]; intros w1 w2 Hg.
  - cbn. split; [exact Hg|reflexivity].
  - cbn [reserveUnavailable]. unfold bind, Reserve. rewrite Hg.
    destruct (IPGenerator_Reserve (ipGen w2) ip) as [g [err|]].
    + rewrite !writeHelloOrLog_run. cbn. split; [reflexivity|].
      split; discriminate.
    + apply IH. reflexivity.
Qed.

(** X5.  The pool that a handshake leaves behind depends on the server, on
    what the client's hello decodes to and on the pool before, and on
    nothing else: in particular not on whether any hello could be
    delivered. *)
Theorem shakeHands_pool_ignores_delivery (s : Server) (c1 c2 : Conn)
    (w1 w2 : World) :
  conn_hello c1 = conn_hello c2 ->
  ipGen w1 = ipGen w2 ->
  ipGen (snd (shakeHands s c1 w1)) = ipGen (snd (shakeHands s c2 w2)).
Proof.
  intros Hhello Hg.
  destruct (conn_hello c2) as [err|cHello] eqn:H2.
  - destruct (shakeHands_cases s c1 w1) as (e1 & _ & Hc1).
    destruct (shakeHands_cases s c2 w2) as (e2 & _ & Hc2).
    rewrite Hhello in Hc1. rewrite H2 in Hc2.
    destruct Hc1 as (_ & _ & ->). destruct Hc2 as (_ & _ & ->). exact Hg.
  - destruct (wrongPasscode s cHello) eqn:Hpass.
    + destruct (shakeHands_cases s c1 w1) as (e1 & _ & Hc1).
      destruct (shakeHands_cases s c2 w2) as (e2 & _ & Hc2).
      rewrite Hhello in Hc1. rewrite H2 in Hc2. cbn zeta in Hc1, Hc2.
      rewrite Hpass in Hc1, Hc2.
      destruct Hc1 as (_ & _ & ->). destruct Hc2 as (_ & _ & ->). exact Hg.
    + destruct (shakeHands_after_loop s c1 w1 cHello Hhello Hpass)
        as (t1 & _ & _ & Hc1).
      destruct (shakeHands_after_loop s c2 w2 cHello H2 Hpass)
        as (t2 & _ & _ & Hc2).
      cbv zeta in Hc1, Hc2.
      match type of Hc1 with
      | context [reserveUnavailable c1 ?h ?ips ?wa] =>
          match type of Hc2 with
          | context [reserveUnavailable c2 h ips ?wb] =>
              destruct (reserveUnavailable_pool c1 c2 h h ips wa wb Hg)
                as (Hpool & Hsame);
              destruct (fst (reserveUnavailable c1 h ips wa)) as [x1|];
              destruct (fst (reserveUnavailable c2 h ips wb)) as [x2|]
          end
      end.
      * destruct Hc1 as (_ & ->). destruct Hc2 as (_ & ->). exact Hpool.
      * destruct Hsame as [_ Hsame]. now specialize (Hsame eq_refl).
      * destruct Hsame as [Hsame _]. now specialize (Hsame eq_refl).
      * destruct Hc1 as (-> & _). destruct Hc2 as (-> & _). now rewrite Hpool.
Qed.

(** *** More of [serveConn] *)

(** Every run of [serveConn], path by path: the events of the handshake
    followed by what the rest of the function adds. *)
Lemma serveConn_cases (s : Server) (conn : Conn) (w : World) :
  exists hs rest,
    trace (snd (shakeHands s conn w)) = trace w ++ hs /\
    forallb isHandshakeEvent hs = true /\
    trace (snd (serveConn s conn w)) = trace w ++ hs ++ rest /\
    ipGen (snd (serveConn s conn w)) = ipGen (snd (shakeHands s conn w)) /\
    match fst (shakeHands s conn w) with
    | inl err =>
        exists rc,
          rest = [EvLog Error "Error negotiating with client %s" (Some err)]
                 ++ closeConnEvents conn rc
    | inr (tunIP, tunGateway) =>
        (exists err rc,
           rest = [EvSetupSysPrivileges (inl err);
                   EvLog Error "Failed to setup system privileges" (Some err)]
                  ++ closeConnEvents conn rc)
        \/
        (exists suid err rr rc,
           rest = [EvSetupSysPrivileges (inr suid);
                   EvNewTUNDevice (inl err);
                   EvLog Error "Error allocating TUN interface" (Some err)]
                  ++ releaseEvents suid rr ++ closeConnEvents conn rc)
        \/
        (exists suid tun err rt rr rc,
           rest = [EvSetupSysPrivileges (inr suid);
                   EvNewTUNDevice (inr tun);
                   EvLog Info "Allocated TUN %s" None;
                   EvSys (SetupTUN tun tunIP TUNNetmaskCIDR tunGateway TUNMTU)
                     (Some err);
                   EvLog Error "Error setting up TUN %s" (Some err)]
                  ++ closeTUNEvents tun rt ++ releaseEvents suid rr
                  ++ closeConnEvents conn rc)
        \/
        (exists suid tun rr1 rp rt rr rc,
           rest = [EvSetupSysPrivileges (inr suid);
                   EvNewTUNDevice (inr tun);
                   EvLog Info "Allocated TUN %s" None;
                   EvSys (SetupTUN tun tunIP TUNNetmaskCIDR tunGateway TUNMTU)
                     None]
                  ++ releaseEvents suid rr1 ++ setupToClearUpEvents rp
                  ++ [EvGoCopy (EpTUN tun) (EpConn (RemoteAddr conn));
                      EvGoCopy (EpConn (RemoteAddr conn)) (EpTUN tun);
                      EvSelect]
                  ++ closeTUNEvents tun rt ++ releaseEvents suid rr
                  ++ closeConnEvents conn rc)
    end.
Proof.
  destruct (shakeHands_events s conn w) as (hs & Hhs & Hneutral).
  exists hs.
  destruct (serveConn s conn w) as [u w'] eqn:E. cbn [snd].
  unfold serveConn, defer in E. unfold bind at 1 2 in E.
  destruct (shakeHands s conn w) as [[err|[tunIP tunGateway]] w1];
    cbn [fst snd] in Hhs |- *.
  { unfold log, emit, bind, ret in E. rewrite closeConn_run in E.
    injection E as _ <-. cbn [trace ipGen]. rewrite Hhs. eexists.
    split; [reflexivity|]. split; [exact Hneutral|].
    split; [rewrite <- !app_assoc; reflexivity|]. split; [reflexivity|].
    eexists. reflexivity. }
  unfold bind at 1 in E. unfold setupSysPrivileges at 1 in E.
  destruct (os_setupSysPrivileges os (trace w1)) as [err|suid].
  { unfold log, emit, bind, ret in E. rewrite closeConn_run in E.
    injection E as _ <-. cbn [trace ipGen]. rewrite Hhs. eexists.
    split; [reflexivity|]. split; [exact Hneutral|].
    split; [rewrite <- !app_assoc; reflexivity|]. split; [reflexivity|].
    left. do 2 eexists. reflexivity. }
  unfold bind at 1 2 in E. unfold newTUNDevice in E. cbn [trace ipGen] in E.
  destruct (os_newTUNDevice os _) as [err|tun].
  { unfold log, emit, bind, ret in E.
    rewrite Server_releaseSysPrivileges_run, closeConn_run in E.
    injection E as _ <-. cbn [trace ipGen]. rewrite Hhs. eexists.
    split; [reflexivity|]. split; [exact Hneutral|].
    split; [rewrite <- !app_assoc; reflexivity|]. split; [reflexivity|].
    right. left. do 4 eexists. reflexivity. }
  unfold bind at 1 2 3 in E. unfold log at 1, emit at 1, sys at 1 in E.
  cbn [trace ipGen] in E.
  destruct (os_sys os _ (SetupTUN _ _ _ _ _)) as [err|].
  { unfold log, emit, bind, ret in E.
    rewrite closeTUN_run, Server_releaseSysPrivileges_run, closeConn_run in E.
    injection E as _ <-. cbn [trace ipGen]. rewrite Hhs. eexists.
    split; [reflexivity|]. split; [exact Hneutral|].
    split; [rewrite <- !app_assoc; reflexivity|]. split; [reflexivity|].
    right. right. left. do 6 eexists. reflexivity. }
  unfold bind at 1 in E. rewrite Server_releaseSysPrivileges_run in E.
  unfold bind at 1 in E. unfold setupSysPrivileges in E. cbn [trace ipGen] in E.
  match type of E with
  | context [releaseEvents suid ?r] => generalize dependent r; intros rr1 E
  end.
  destruct (os_setupSysPrivileges os _) as [err|suid2];
    unfold log, emit, bind, ret in E; cbn [trace ipGen] in E;
    rewrite closeTUN_run in E;
    match type of E with
    | context [closeTUNEvents tun ?r] => generalize dependent r; intros rt E
    end;
    rewrite Server_releaseSysPrivileges_run in E;
    match type of E with
    | context [releaseEvents suid (os_sys ?o ?t ?c)] =>
        generalize dependent (os_sys o t c); intros rr2 E
    end;
    rewrite closeConn_run in E;
    match type of E with
    | context [closeConnEvents conn ?r] => generalize dependent r; intros rc E
    end;
    injection E as _ <-; cbn [trace ipGen]; rewrite Hhs; eexists;
    (split; [reflexivity|]); (split; [exact Hneutral|]);
    (split; [rewrite <- !app_assoc; reflexivity|]); (split; [reflexivity|]);
    right; right; right.
  - exists suid, tun, rr1, (inl err), rt, rr2, rc. reflexivity.
  - exists suid, tun, rr1, (inr suid2), rt, rr2, rc. reflexivity.
Qed.

Lemma pick_handshake (A : Type) (f : Event -> option A) (hs : list Event) :
  (forall e, isHandshakeEvent e = true -> f e = None) ->
  forallb isHandshakeEvent hs = true -> pick f hs = [].
Proof.
  intros Hf. induction hs as [|e hs IH]; cbn; [reflexivity|].
  intros H. apply andb_true_iff in H as [He Hhs].
  rewrite (Hf e He). now apply IH.
Qed.

Lemma holdsPrivileges_app (held : bool) (a b : list Event) :
  holdsPrivileges held (a ++ b) = holdsPrivileges (holdsPrivileges held a) b.
Proof. apply fold_left_app. Qed.

Lemma holdsPrivileges_handshake (held : bool) (hs : list Event) :
  forallb isHandshakeEvent hs = true -> holdsPrivileges held hs = held.
Proof.
  revert held. induction hs as [|e hs IH]; intros held; [reflexivity|].
  cbn [forallb]. intros H. apply andb_true_iff in H as [He Hhs].
  destruct e; try discriminate; cbn; now apply IH.
Qed.

(** Splits a projection of the events of [serveConn] into the part of the
    handshake, which is empty, and the part of the rest. *)
Ltac drop_handshake Hneutral :=
  rewrite ?pick_app;
  match type of Hneutral with
  | forallb _ ?hs = true =>
      erewrite (pick_handshake _ _ hs);
        [ | intros e He; destruct e; try discriminate He; reflexivity
          | exact Hneutral ]
  end;
  cbn [app].

(** Runs a projection over the explicit events of a path of [serveConn]. *)
Ltac run_path :=
  unfold closeConnEvents, closeTUNEvents, releaseEvents, setupToClearUpEvents;
  repeat match goal with
         | |- context [match ?r with Some _ => _ | None => _ end] => destruct r
         | |- context [match ?r with inl _ => _ | inr _ => _ end] => destruct r
         end;
  cbn.

(** X6.  On every path [serveConn] closes the client connection exactly
    once, and that is the last call it makes. *)
Theorem serveConn_closes_conn_last (s : Server) (conn : Conn) (w : World)
    (evs : list Event) :
  trace (snd (serveConn s conn w)) = trace w ++ evs ->
  connsClosed evs = [RemoteAddr conn] /\
  exists before rc,
    evs = before ++ closeConnEvents conn rc /\ connsClosed before = [].
Proof.
  intros Hevs.
  destruct (serveConn_cases s conn w) as (hs & rest & _ & Hneutral & Ht & _ & Hc).
  rewrite Ht in Hevs. apply app_inv_head in Hevs. subst evs.
  destruct (fst (shakeHands s conn w)) as [err|[tunIP tunGateway]].
  { destruct Hc as (rc & ->). split.
    - unfold connsClosed. drop_handshake Hneutral. run_path; reflexivity.
    - eexists. exists rc. split; [rewrite app_assoc; reflexivity|].
      unfold connsClosed. drop_handshake Hneutral. reflexivity. }
  destruct Hc as [(err & rc & ->)|[(suid & err & rr & rc & ->)
    |[(suid & tun & err & rt & rr & rc & ->)
     |(suid & tun & rr1 & rp & rt & rr & rc & ->)]]].
  - split.
    + unfold connsClosed. drop_handshake Hneutral. run_path; reflexivity.
    + eexists. exists rc. split; [rewrite app_assoc; reflexivity|].
      unfold connsClosed. drop_handshake Hneutral. reflexivity.
  - split.
    + unfold connsClosed. drop_handshake Hneutral. run_path; reflexivity.
    + eexists. exists rc. split; [rewrite !app_assoc; reflexivity|].
      unfold connsClosed. rewrite <- !app_assoc. drop_handshake Hneutral.
      run_path; reflexivity.
  - split.
    + unfold connsClosed. drop_handshake Hneutral. run_path; reflexivity.
    + eexists. exists rc. split; [rewrite !app_assoc; reflexivity|].
      unfold connsClosed. rewrite <- !app_assoc. drop_handshake Hneutral.
      run_path; reflexivity.
  - split.
    + unfold connsClosed. drop_handshake Hneutral. run_path; reflexivity.
    + eexists. exists rc. split; [rewrite !app_assoc; reflexivity|].
      unfold connsClosed. rewrite <- !app_assoc. drop_handshake Hneutral.
      run_path; reflexivity.
Qed.

(** X7.  [serveConn] closes every TUN device it created, and no other; it
    creates at most one. *)
Theorem serveConn_tun_lifecycle (s : Server) (conn : Conn) (w : World)
    (evs : list Event) :
  trace (snd (serveConn s conn w)) = trace w ++ evs ->
  tunsClosed evs = tunsCreated evs /\ (List.length (tunsCreated evs) <= 1)%nat.
Proof.
  intros Hevs.
  destruct (serveConn_cases s conn w) as (hs & rest & _ & Hneutral & Ht & _ & Hc).
  rewrite Ht in Hevs. apply app_inv_head in Hevs. subst evs.
  destruct (fst (shakeHands s conn w)) as [err|[tunIP tunGateway]];
    [ destruct Hc as (rc & ->)
    | destruct Hc as [(err & rc & ->)|[(suid & err & rr & rc & ->)
        |[(suid & tun & err & rt & rr & rc & ->)
         |(suid & tun & rr1 & rp & rt & rr & rc & ->)]]] ];
    unfold tunsClosed, tunsCreated;
    drop_handshake Hneutral; drop_handshake Hneutral;
    run_path; split; solve [reflexivity | lia].
Qed.


(** X9.  When the handshake fails, [serveConn] logs the error and does
    nothing else before closing the connection: it never asks for
    privileges, creates no TUN device and starts no relay. *)
Theorem serveConn_failed_handshake (s : Server) (conn : Conn) (w : World)
    (evs : list Event) (err : error) :
  fst (shakeHands s conn w) = inl err ->
  trace (snd (serveConn s conn w)) = trace w ++ evs ->
  setupCalls evs = [] /\
  tunsCreated evs = [] /\
  relayStarts evs = [] /\
  In (EvLog Error "Error negotiating with client %s" (Some err)) evs.
Proof.
  intros Hfail Hevs.
  destruct (serveConn_cases s conn w) as (hs & rest & _ & Hneutral & Ht & _ & Hc).
  rewrite Ht in Hevs. apply app_inv_head in Hevs. subst evs.
  rewrite Hfail in Hc. destruct Hc as (rc & ->).
  split; [unfold setupCalls; drop_handshake Hneutral; run_path; reflexivity|].
  split; [unfold tunsCreated; drop_handshake Hneutral; run_path; reflexivity|].
  split; [unfold relayStarts; drop_handshake Hneutral; run_path; reflexivity|].
  apply in_or_app. right. left. reflexivity.
Qed.

(** X10.  When [serveConn] returns, privileges are not held, unless a
    release of privileges failed. *)
Theorem serveConn_privileges_released (s : Server) (conn : Conn) (w : World)
    (evs : list Event) :
  trace (snd (serveConn s conn w)) = trace w ++ evs ->
  failedReleases evs = [] ->
  holdsPrivileges false evs = false.
Proof.
  intros Hevs.
  destruct (serveConn_cases s conn w) as (hs & rest & _ & Hneutral & Ht & _ & Hc).
  rewrite Ht in Hevs. apply app_inv_head in Hevs. subst evs.
  rewrite holdsPrivileges_app, (holdsPrivileges_handshake _ _ Hneutral).
  destruct (fst (shakeHands s conn w)) as [err|[tunIP tunGateway]];
    [ destruct Hc as (rc & ->)
    | destruct Hc as [(err & rc & ->)|[(suid & err & rr & rc & ->)
        |[(suid & tun & err & rt & rr & rc & ->)
         |(suid & tun & rr1 & rp & rt & rr & rc & ->)]]] ];
    unfold failedReleases; drop_handshake Hneutral;
    run_path; intros H; solve [reflexivity | discriminate H].
Qed.

(** X11.  After the handshake [serveConn] never touches the address pool:
    whatever happens to the TUN device and to the relay, the block that the
    handshake allocated is not given back. *)
Theorem serveConn_keeps_block (s : Server) (conn : Conn) (w : World)
    (evs hs : list Event) :
  trace (snd (serveConn s conn w)) = trace w ++ evs ->
  trace (snd (shakeHands s conn w)) = trace w ++ hs ->
  poolCalls evs = poolCalls hs /\
  ipGen (snd (serveConn s conn w)) = ipGen (snd (shakeHands s conn w)).
Proof.
  intros Hevs Hhs.
  destruct (serveConn_cases s conn w)
    as (hs' & rest & Hhs' & Hneutral & Ht & Hpool & Hc).
  rewrite Ht in Hevs. apply app_inv_head in Hevs. subst evs.
  rewrite Hhs' in Hhs. apply app_inv_head in Hhs. subst hs'.
  split; [|exact Hpool]. rewrite poolCalls_app.
  rewrite <- (app_nil_r (poolCalls hs)) at 2. f_equal.
  destruct (fst (shakeHands s conn w)) as [err|[tunIP tunGateway]];
    [ destruct Hc as (rc & ->)
    | destruct Hc as [(err & rc & ->)|[(suid & err & rr & rc & ->)
        |[(suid & tun & err & rt & rr & rc & ->)
         |(suid & tun & rr1 & rp & rt & rr & rc & ->)]]] ];
    run_path; reflexivity.
Qed.

(** *** More of [Serve] *)

(** Every run of the closure of [Serve] with what it returns: the error
    names the step that failed, and [lis] is set only once the setup is
    complete. *)
Lemma serveOnceBody_outcome (s : Server) (l : Listener) (w : World) :
  exists evs,
    trace (snd (serveOnceBody s l w)) = trace w ++ evs /\
    ((exists err,
        evs = [EvSetupSysPrivileges (inl err)] /\
        fst (serveOnceBody s l w)
        = (fmt_Errorf "failed to setup system privileges: %w" [ArgErr err], s))
     \/
     (exists suid err rr,
        evs = [EvSetupSysPrivileges (inr suid);
               EvSys EnableIPv4Forwarding (Some err)]
              ++ releaseEvents suid rr /\
        fst (serveOnceBody s l w)
        = (fmt_Errorf "error enabling IPv4 forwarding: %w" [ArgErr err], s))
     \/
     (exists suid err r4 rr,
        evs = [EvSetupSysPrivileges (inr suid);
               EvSys EnableIPv4Forwarding None;
               EvLog Info "Set IPv4 forwarding = 1" None;
               EvSys EnableIPv6Forwarding (Some err)]
              ++ revertIPv4Events s r4 ++ releaseEvents suid rr /\
        fst (serveOnceBody s l w)
        = (fmt_Errorf "error enabling IPv6 forwarding: %w" [ArgErr err], s))
     \/
     (exists suid err r6 r4 rr,
        evs = [EvSetupSysPrivileges (inr suid);
               EvSys EnableIPv4Forwarding None;
               EvLog Info "Set IPv4 forwarding = 1" None;
               EvSys EnableIPv6Forwarding None;
               EvLog Info "Set IPv6 forwarding = 1" None;
               EvSys (EnableIPMasquerading (defaultNetworkInterface s)) (Some err)]
              ++ revertIPv6Events s r6 ++ revertIPv4Events s r4
              ++ releaseEvents suid rr /\
        fst (serveOnceBody s l w)
        = (fmt_Errorf "error enabling IP masquerading for %s: %w"
             [ArgStr (defaultNetworkInterface s); ArgErr err], s))
     \/
     (exists suid rr1 rp rm r6 r4 rr,
        evs = setupEvents s suid ++ releaseEvents suid rr1
              ++ acceptEvents (lis_conns l) (lis_err l)
              ++ teardownEvents s suid rp rm r6 r4 rr /\
        fst (serveOnceBody s l w)
        = (fmt_Errorf "failed to accept client connection: %w" [ArgErr (lis_err l)],
           set_lis s (Some l)))).
Proof.
  destruct (serveOnceBody s l w) as [r w'] eqn:E. cbn [fst snd].
  unfold serveOnceBody, setupSysPrivileges in E. unfold bind at 1 in E.
  destruct (os_setupSysPrivileges os (trace w)) as [err|suid].
  { injection E as <- <-. eexists. split; [reflexivity|].
    left. exists err. split; reflexivity. }
  unfold defer at 1, bind at 1 2, sys at 1 in E.
  destruct (os_sys os _ EnableIPv4Forwarding) as [err|].
  { unfold bind, ret in E. rewrite Server_releaseSysPrivileges_run in E.
    injection E as <- <-. cbn [trace ipGen].
    eexists. split; [rewrite <- !app_assoc; reflexivity|].
    right. left. do 3 eexists. split; reflexivity. }
  unfold log at 1, emit at 1, defer at 1, bind at 1 2 3, sys at 1 in E.
  cbn [trace ipGen] in E.
  destruct (os_sys os _ EnableIPv6Forwarding) as [err|].
  { unfold bind, ret in E.
    rewrite revertIPv4_run, Server_releaseSysPrivileges_run in E.
    injection E as <- <-. cbn [trace ipGen].
    eexists. split; [rewrite <- !app_assoc; reflexivity|].
    right. right. left. do 4 eexists. split; reflexivity. }
  unfold log at 1, emit at 1, defer at 1, bind at 1 2 3, sys at 1 in E.
  cbn [trace ipGen] in E.
  destruct (os_sys os _ (EnableIPMasquerading _)) as [err|].
  { unfold bind, ret in E.
    rewrite revertIPv6_run, revertIPv4_run, Server_releaseSysPrivileges_run in E.
    injection E as <- <-. cbn [trace ipGen].
    eexists. split; [rewrite <- !app_assoc; reflexivity|].
    right. right. right. left. do 5 eexists. split; reflexivity. }
  unfold log, emit, defer, bind, ret in E. cbn [trace ipGen] in E.
  rewrite Server_releaseSysPrivileges_run in E.
  match type of E with
  | context [releaseEvents suid ?r] => generalize dependent r; intros rr1 E
  end.
  rewrite acceptLoop_run, setupToClearUp_run in E.
  match type of E with
  | context [setupToClearUpEvents ?r] => generalize dependent r; intros rp E
  end.
  rewrite disableMasquerading_run in E.
  match type of E with
  | context [disableMasqueradingEvents s ?r] => generalize dependent r; intros rm E
  end.
  rewrite revertIPv6_run in E.
  match type of E with
  | context [revertIPv6Events s ?r] => generalize dependent r; intros r6 E
  end.
  rewrite revertIPv4_run in E.
  match type of E with
  | context [revertIPv4Events s ?r] => generalize dependent r; intros r4 E
  end.
  rewrite Server_releaseSysPrivileges_run in E.
  match type of E with
  | context [releaseEvents suid (os_sys ?o ?t ?c)] =>
      generalize dependent (os_sys o t c); intros rr E
  end.
  injection E as <- <-. cbn [trace ipGen].
  eexists. split; [rewrite <- !app_assoc; reflexivity|].
  right. right. right. right. exists suid, rr1, rp, rm, r6, r4, rr.
  split; reflexivity.
Qed.

Lemma pick_acceptEvents (A : Type) (f : Event -> option A) (conns : list Conn)
    (e : error) :
  (forall r, f (EvAccept r) = None) ->
  (forall c, f (EvGoServeConn c) = None) ->
  pick f (acceptEvents conns e) = [].
Proof.
  intros Ha Hg. induction conns as [|conn rest IH]; cbn.
  - now rewrite Ha.
  - now rewrite Ha, Hg.
Qed.

Lemma accepted_acceptEvents (conns : list Conn) (e : error) :
  accepted (acceptEvents conns e) = conns.
Proof. induction conns as [|conn rest IH]; cbn; [reflexivity|now f_equal]. Qed.

Lemma spawned_acceptEvents (conns : list Conn) (e : error) :
  spawned (acceptEvents conns e) = conns.
Proof. induction conns as [|conn rest IH]; cbn; [reflexivity|now f_equal]. Qed.




(** The events of a call of [Serve], whether it is the first or not. *)
Lemma Serve_outcome (s : Server) (l : Listener) (w : World) (evs : list Event) :
  trace (snd (Serve s l w)) = trace w ++ evs ->
  (serveOnce s = true /\ evs = [] /\
   Serve s l w = (errors_New "already serving", s, w))
  \/
  (serveOnce s = false /\
   trace (snd (serveOnceBody s l w)) = trace w ++ evs /\
   Serve s l w
   = (fst (fst (serveOnceBody s l w)),
      set_serveOnce (snd (fst (serveOnceBody s l w))) true,
      snd (serveOnceBody s l w))).
Proof.
  intros Hevs. destruct (serveOnce s) eqn:Honce.
  - left. rewrite (Serve_again s l w Honce) in Hevs |- *. cbn [snd] in Hevs.
    rewrite <- (app_nil_r (trace w)) in Hevs at 1.
    apply app_inv_head in Hevs. auto.
  - right. rewrite (Serve_first s l w Honce) in Hevs |- *. cbn [snd] in Hevs.
    auto.
Qed.

(** Takes the run of [Serve] with events [evs] apart, path by path. *)
Ltac serve_paths s l w Hevs :=
  let Honce := fresh "Honce" in
  let Hbody := fresh "Hbody" in
  let Hrun := fresh "Hrun" in
  let evs' := fresh "evs" in
  let Ht := fresh "Ht" in
  let Hc := fresh "Hc" in
  destruct (Serve_outcome s l w _ Hevs)
    as [(Honce & -> & Hrun)|(Honce & Hbody & Hrun)];
  [ | destruct (serveOnceBody_outcome s l w) as (evs' & Ht & Hc);
      rewrite Ht in Hbody; apply app_inv_head in Hbody; subst evs';
      destruct Hc as [(err & -> & Hres)|[(suid & err & rr & -> & Hres)
        |[(suid & err & r4 & rr & -> & Hres)
         |[(suid & err & r6 & r4 & rr & -> & Hres)
          |(suid & rr1 & rp & rm & r6 & r4 & rr & -> & Hres)]]]] ].

(** X12.  In every run of [Serve] the restoring calls undo exactly the
    enabling steps that succeeded, in reverse order: a setup that failed
    half way is rolled back as far as it got. *)
Theorem Serve_rollback_mirrors_setup (s : Server) (l : Listener) (w : World)
    (evs : list Event) :
  trace (snd (Serve s l w)) = trace w ++ evs ->
  map fst (restoreCalls evs) = rev (map (undoCall s) (enabled evs)).
Proof.
  intros Hevs. serve_paths s l w Hevs; unfold enabled.
  - reflexivity.
  - reflexivity.
  - project_calls. now destruct rr.
  - project_calls. now destruct r4, rr.
  - project_calls. now destruct r6, r4, rr.
  - project_calls. now destruct rr1, rp, rm, r6, r4, rr.
Qed.

(** X13.  Every connection that [Serve] accepts is given its own
    [serveConn] task, in the order of acceptance; connections are accepted
    only after a complete setup, and then all that the listener yields
    before it fails. *)
Theorem Serve_spawns_each_accepted (s : Server) (l : Listener) (w : World)
    (evs : list Event) :
  trace (snd (Serve s l w)) = trace w ++ evs ->
  spawned evs = accepted evs /\
  accepted evs
  = if (List.length (enabled evs) =? 3)%nat then lis_conns l else [].
Proof.
  intros Hevs. serve_paths s l w Hevs; unfold enabled.
  - split; reflexivity.
  - split; reflexivity.
  - project_calls. destruct rr; split; reflexivity.
  - project_calls. destruct r4, rr; split; reflexivity.
  - project_calls. destruct r6, r4, rr; split; reflexivity.
  - rewrite !enableCalls_app, enableCalls_acceptEvents.
    unfold spawned, accepted. rewrite !pick_app.
    fold spawned accepted. rewrite spawned_acceptEvents, accepted_acceptEvents.
    unfold teardownEvents, setupEvents, releaseEvents, setupToClearUpEvents,
      disableMasqueradingEvents, revertIPv6Events, revertIPv4Events.
    destruct rr1, rp, rm, r6, r4, rr; cbn; rewrite ?app_nil_r; split; reflexivity.
Qed.

(** Unfolds the events of the closures of [Serve]. *)
Ltac open_events :=
  unfold teardownEvents, setupEvents, releaseEvents, setupToClearUpEvents,
    disableMasqueradingEvents, revertIPv6Events, revertIPv4Events.

(** Settles a hypothesis that puts a pair into an explicit list, or that
    equates two explicit lists. *)
Ltac settle H :=
  repeat match type of H with
         | _ \/ _ => destruct H as [H|H]
         | False => destruct H
         end;
  first [ discriminate H
        | injection H; intros; subst; reflexivity
        | reflexivity ].


(** X15.  The error that a first call of [Serve] returns wraps the cause of
    the step that failed: taking privileges, one of the three enabling
    calls with the error that call gave, or, after a complete setup, the
    listener's accept error. *)
Theorem Serve_error_names_failed_step (s : Server) (l : Listener) (w : World)
    (evs : list Event) :
  serveOnce s = false ->
  trace (snd (Serve s l w)) = trace w ++ evs ->
  (forall err, setupCalls evs = [inl err] ->
     fst (fst (Serve s l w))
     = fmt_Errorf "failed to setup system privileges: %w" [ArgErr err]) /\
  (forall err, In (EnableIPv4Forwarding, Some err) (enableCalls evs) ->
     fst (fst (Serve s l w))
     = fmt_Errorf "error enabling IPv4 forwarding: %w" [ArgErr err]) /\
  (forall err, In (EnableIPv6Forwarding, Some err) (enableCalls evs) ->
     fst (fst (Serve s l w))
     = fmt_Errorf "error enabling IPv6 forwarding: %w" [ArgErr err]) /\
  (forall ifc err, In (EnableIPMasquerading ifc, Some err) (enableCalls evs) ->
     fst (fst (Serve s l w))
     = fmt_Errorf "error enabling IP masquerading for %s: %w"
         [ArgStr ifc; ArgErr err]) /\
  (List.length (enabled evs) = 3%nat ->
     fst (fst (Serve s l w))
     = fmt_Errorf "failed to accept client connection: %w" [ArgErr (lis_err l)]).
Proof.
  intros Hfirst Hevs. serve_paths s l w Hevs; [congruence|..];
    rewrite Hrun, Hres; cbn [fst snd]; unfold enabled, setupCalls;
    rewrite ?enableCalls_app, ?enableCalls_acceptEvents, ?pick_app,
      ?(pick_acceptEvents _ _ _ _ (fun _ => eq_refl) (fun _ => eq_refl));
    open_events.
  - repeat split; intros; cbn in *; settle H.
  - destruct rr; repeat split; intros; cbn in *; settle H.
  - destruct r4, rr; repeat split; intros; cbn in *; settle H.
  - destruct r6, r4, rr; repeat split; intros; cbn in *; settle H.
  - destruct rr1, rp, rm, r6, r4, rr; repeat split; intros; cbn in *; settle H.
Qed.

(** X16.  After a first [Serve] that completed its setup, [Close] calls
    [Close] on the served listener once and returns its answer, and a
    further [Close] calls nothing and returns nil, also when the first one
    failed; after a [Serve] that failed in its setup, [Close] on a server
    that had no listener calls nothing. *)
Theorem Serve_then_Close (closeLis closeLis' : Listener -> option error)
    (s : Server) (l : Listener) (w : World) (evs : list Event) :
  serveOnce s = false ->
  trace (snd (Serve s l w)) = trace w ++ evs ->
  (List.length (enabled evs) = 3%nat ->
   Close closeLis (snd (fst (Serve s l w)))
   = (closeLis l, set_lis (snd (fst (Serve s l w))) None, [l]) /\
   Close closeLis' (set_lis (snd (fst (Serve s l w))) None)
   = (None, set_lis (snd (fst (Serve s l w))) None, [])) /\
  (List.length (enabled evs) <> 3%nat ->
   lis s = None ->
   Close closeLis (snd (fst (Serve s l w)))
   = (None, snd (fst (Serve s l w)), [])).
Proof.
  intros Hfirst Hevs. serve_paths s l w Hevs; [congruence|..];
    rewrite Hrun, Hres; cbn [fst snd]; unfold enabled;
    rewrite ?enableCalls_app, ?enableCalls_acceptEvents;
    open_events.
  - split; [discriminate|]. intros _ Hlis. unfold Close. cbn. now rewrite Hlis.
  - destruct rr; (split; [discriminate|]); intros _ Hlis; unfold Close; cbn;
      now rewrite Hlis.
  - destruct r4, rr; (split; [discriminate|]); intros _ Hlis; unfold Close; cbn;
      now rewrite Hlis.
  - destruct r6, r4, rr; (split; [discriminate|]); intros _ Hlis; unfold Close;
      cbn; now rewrite Hlis.
  - destruct rr1, rp, rm, r6, r4, rr; cbn;
      (split; [intros _; split; reflexivity|intros H; now contradiction H]).
Qed.

(** *** [NewServer] *)

(** Every run of [NewServer], path by path. *)
Lemma NewServer_cases (g : IPGenerator) (host : Host) (c : ServerConfig)
    (w : World) :
  exists evs,
    trace (snd (NewServer g host c w)) = trace w ++ evs /\
    ((exists err,
        evs = [EvSetupSysPrivileges (inl err)] /\
        fst (NewServer g host c w)
        = inl (fmt_Errorf "failed to setup system privileges" []))
     \/
     (exists suid rr,
        ipGen (snd (NewServer g host c w)) = g /\
        match host_defaultNetworkInterface host with
        | inl err =>
            evs = [EvSetupSysPrivileges (inr suid)] ++ releaseEvents suid rr /\
            fst (NewServer g host c w)
            = inl (fmt_Errorf "error getting default network interface: %w"
                     [ArgErr err])
        | inr ifc =>
            match host_ipv4ForwardingValue host with
            | inl err =>
                evs = [EvSetupSysPrivileges (inr suid);
                       EvLog Info "Got default network interface: %s" None]
                      ++ releaseEvents suid rr /\
                fst (NewServer g host c w)
                = inl (fmt_Errorf "error getting IPv4 forwarding value: %w"
                         [ArgErr err])
            | inr v4 =>
                match host_ipv6ForwardingValue host with
                | inl _ =>
                    evs = [EvSetupSysPrivileges (inr suid);
                           EvLog Info "Got default network interface: %s" None]
                          ++ releaseEvents suid rr /\
                    fst (NewServer g host c w)
                    = inl (fmt_Errorf "error getting IPv6 forwarding value" [])
                | inr v6 =>
                    evs = [EvSetupSysPrivileges (inr suid);
                           EvLog Info "Got default network interface: %s" None;
                           EvLog Info "Old IP forwarding values:" None;
                           EvLog Info "IPv4: %s, IPv6: %s" None]
                          ++ releaseEvents suid rr /\
                    fst (NewServer g host c w)
                    = inr {| cfg := c;
                             lis := None;
                             serveOnce := false;
                             defaultNetworkInterface := ifc;
                             ipv4ForwardingVal := v4;
                             ipv6ForwardingVal := v6 |}
                end
            end
        end)).
Proof.
  destruct (NewServer g host c w) as [r w'] eqn:E. cbn [fst snd].
  unfold NewServer, setupSysPrivileges in E. unfold bind at 1 in E.
  destruct (os_setupSysPrivileges os (trace w)) as [err|suid].
  { injection E as <- <-. eexists. split; [reflexivity|].
    left. exists err. split; reflexivity. }
  unfold bind at 1, defer in E. cbn [trace ipGen] in E.
  destruct (host_defaultNetworkInterface host) as [err|ifc].
  { unfold bind, ret in E. rewrite Server_releaseSysPrivileges_run in E.
    injection E as <- <-. cbn [trace ipGen].
    eexists. split; [rewrite <- !app_assoc; reflexivity|].
    right. do 2 eexists. split; [reflexivity|]. split; reflexivity. }
  destruct (host_ipv4ForwardingValue host) as [err|v4].
  { unfold log, emit, bind, ret in E. cbn [trace ipGen] in E.
    rewrite Server_releaseSysPrivileges_run in E.
    injection E as <- <-. cbn [trace ipGen].
    eexists. split; [rewrite <- !app_assoc; reflexivity|].
    right. do 2 eexists. split; [reflexivity|]. split; reflexivity. }
  destruct (host_ipv6ForwardingValue host) as [err|v6];
    unfold log, emit, bind, ret in E; cbn [trace ipGen] in E;
    rewrite Server_releaseSysPrivileges_run in E;
    injection E as <- <-; cbn [trace ipGen];
    (eexists; split; [rewrite <- !app_assoc; reflexivity|]);
    right; do 2 eexists; (split; [reflexivity|]); split; reflexivity.
Qed.

(** X17.  [NewServer] asks for privileges once.  When it does not get
    them it returns an error and releases nothing; when it gets them it
    releases them, under the user id it was given, as its last call, on
    success and on every error path alike. *)
Theorem NewServer_releases_privileges (g : IPGenerator) (host : Host)
    (c : ServerConfig) (w : World) (evs : list Event) :
  trace (snd (NewServer g host c w)) = trace w ++ evs ->
  exists r,
    setupCalls evs = [r] /\
    match r with
    | inl _ =>
        releaseCalls evs = [] /\
        fst (NewServer g host c w)
        = inl (fmt_Errorf "failed to setup system privileges" [])
    | inr suid =>
        releaseCalls evs = [suid] /\
        exists before rr,
          evs = before ++ releaseEvents suid rr /\ releaseCalls before = []
    end.
Proof.
  intros Hevs.
  destruct (NewServer_cases g host c w) as (evs' & Ht & Hc).
  rewrite Ht in Hevs. apply app_inv_head in Hevs. subst evs'.
  destruct Hc as [(err & -> & Hres)|(suid & rr & _ & Hc)].
  { exists (inl err). split; [reflexivity|]. split; [reflexivity|exact Hres]. }
  exists (inr suid).
  destruct (host_defaultNetworkInterface host) as [err|ifc];
    [|destruct (host_ipv4ForwardingValue host) as [err|v4];
      [|destruct (host_ipv6ForwardingValue host) as [err|v6]]];
    destruct Hc as (-> & _);
    (split; [unfold releaseEvents; destruct rr; reflexivity|]);
    (split; [unfold releaseEvents; destruct rr; reflexivity|]);
    eexists; exists rr; (split; [reflexivity|reflexivity]).
Qed.

(** X18.  What the teardown of [Serve] writes back is what [NewServer]
    read: on a server that [NewServer] returned, a run of [Serve] with a
    complete setup enables masquerading on the interface the host named
    and, at the end, disables it there and sets the IPv6 and the IPv4
    forwarding to the values the host had at construction. *)
Theorem NewServer_Serve_restores_snapshot (g : IPGenerator) (host : Host)
    (c : ServerConfig) (w0 w : World) (srv : Server) (l : Listener)
    (evs : list Event) :
  fst (NewServer g host c w0) = inr srv ->
  trace (snd (Serve srv l w)) = trace w ++ evs ->
  List.length (enabled evs) = 3%nat ->
  exists ifc v4 v6,
    host_defaultNetworkInterface host = inr ifc /\
    host_ipv4ForwardingValue host = inr v4 /\
    host_ipv6ForwardingValue host = inr v6 /\
    enabled evs
    = [EnableIPv4Forwarding; EnableIPv6Forwarding; EnableIPMasquerading ifc] /\
    map fst (restoreCalls evs)
    = [DisableIPMasquerading ifc; SetIPv6ForwardingValue v6;
       SetIPv4ForwardingValue v4].
Proof.
  intros Hnew Hevs Hlen.
  destruct (NewServer_cases g host c w0) as (evs0 & _ & Hc).
  rewrite Hnew in Hc.
  destruct Hc as [(err & _ & Hres)|(suid0 & rr0 & _ & Hc)]; [discriminate|].
  destruct (host_defaultNetworkInterface host) as [err|ifc];
    [destruct Hc as (_ & Hres); discriminate|].
  destruct (host_ipv4ForwardingValue host) as [err|v4];
    [destruct Hc as (_ & Hres); discriminate|].
  destruct (host_ipv6ForwardingValue host) as [err|v6];
    [destruct Hc as (_ & Hres); discriminate|].
  destruct Hc as (_ & Hres). injection Hres as ->.
  exists ifc, v4, v6. do 3 (split; [reflexivity|]). revert Hlen.
  serve_paths {| cfg := c; lis := None; serveOnce := false;
                 defaultNetworkInterface := ifc; ipv4ForwardingVal := v4;
                 ipv6ForwardingVal := v6 |} l w Hevs;
    unfold enabled;
    rewrite ?enableCalls_app, ?enableCalls_acceptEvents,
      ?restoreCalls_app, ?restoreCalls_acceptEvents;
    open_events.
  - discriminate.
  - discriminate.
  - destruct rr; discriminate.
  - destruct r4, rr; discriminate.
  - destruct r6, r4, rr; discriminate.
  - intros _. destruct rr1, rp, rm, r6, r4, rr; split; reflexivity.
Qed.

End VPN.











(** ** The server on concrete inputs

    The server is run on the pool, the splitter and the status numbering
    of the specification. *)

Local Abbreviation specShakeHands :=
  (shakeHands SpecPool.t SpecPool.Reserve SpecPool.Next specFetchIPv4Octets
     specStatusForbidden specStatusBadRequest specNoFreeIPs
     specStatusInternalError).

Local Abbreviation oddShakeHands :=
  (shakeHands unit oddPoolReserve oddPoolNext specFetchIPv4Octets
     specStatusForbidden specStatusBadRequest specNoFreeIPs
     specStatusInternalError).

Local Abbreviation specServeConn :=
  (serveConn SpecPool.t SpecPool.Reserve SpecPool.Next specFetchIPv4Octets
     specStatusForbidden specStatusBadRequest specNoFreeIPs
     specStatusInternalError "/29" 1500).

Local Abbreviation specServe := (Serve SpecPool.t).

(** The first handshake on a fresh pool, without passcode. *)
Local Abbreviation firstRun :=
  (specShakeHands (serverOf "") (connOf helloPlain) specWorld).

(** The same handshake on a pool whose block ends at 10.0.0.255. *)
Local Abbreviation oddRun :=
  (oddShakeHands (serverOf "") (connOf helloPlain) oddWorld).

(** The same handshake with a client that does not take the answer. *)
Local Abbreviation goneRun :=
  (specShakeHands (serverOf "") (connGone helloPlain) specWorld).

(** The handshake of a client whose passcode is not the server's. *)
Local Abbreviation forbiddenRun :=
  (specShakeHands (serverOf "secret") (connOf helloPlain) specWorld).

(** The handshake of a client that declares a malformed address, and a
    handshake on a pool that has no block left. *)
Local Abbreviation badRequestRun :=
  (specShakeHands (serverOf "") (connOf helloBadIP) specWorld).

Local Abbreviation exhaustedRun :=
  (specShakeHands (serverOf "") (connOf helloPlain)
     (mkWorld SpecPool.exhausted [])).

(** A whole run of [Serve] on a host where every restoring call fails. *)
Local Abbreviation serveRun :=
  (specServe osRestoreFails (serverOf "") lisTwo specWorld).

(** Every base the pool of the specification hands out is the start of a
    /29 block: its last octet is a multiple of 8, at most 248, so that the
    four offsets never leave the last octet. *)
Lemma SpecPool_Next_aligned (p p' : SpecPool.t) (B : IP) :
  SpecPool.Next p = (p', inr B) ->
  exists o, specFetchIPv4Octets B = inr o /\ 0 <= lastOctet o <= 248.
Proof.
  unfold SpecPool.Next.
  destruct (SpecPool.scan _ _ _) as [k|]; [|discriminate].
  intros H. injection H as _ <-.
  exists (192, 168, k / 32, (k mod 32) * 8). split; [reflexivity|].
  cbn [lastOctet]. pose proof (Z.mod_pos_bound k 32). lia.
Qed.

(** C2.  On a connection whose handshake succeeds and a host on which every
    call succeeds, [serveConn] has taken privileges back before it starts
    the relay: both relay tasks are started with privileges held (line 208
    runs at once, it is not deferred). *)
Theorem serveConn_relay_starts_privileged :
  relayPrivileges false
    (trace (snd (specServeConn osAllFine (serverOf "") (connOf helloPlain) specWorld)))
  = [true; true].
Proof. vm_compute. reflexivity. Qed.

Lemma shakeHands_success_addresses_witness :
  firstRun = (inr (net_IPv4 192 168 0 2, net_IPv4 192 168 0 1), snd firstRun) /\
  exists evs B o hello,
    trace (snd firstRun) = trace specWorld ++ evs /\
    nextCalls evs = [inr B] /\
    specFetchIPv4Octets B = inr o /\
    sendResults evs = [(hello, None)] /\
    TUNIP hello = subnetPlus o 4 /\
    TUNGateway hello = subnetPlus o 3 /\
    net_IPv4 192 168 0 2 = subnetPlus o 2 /\
    net_IPv4 192 168 0 1 = subnetPlus o 1 /\
    (0 <= lastOctet o <= 251 ->
     option_map octetsToZ (IP_To4 (TUNIP hello)) = Some (octetsToZ o + 4) /\
     option_map octetsToZ (IP_To4 (TUNGateway hello)) = Some (octetsToZ o + 3) /\
     option_map octetsToZ (IP_To4 (net_IPv4 192 168 0 2)) = Some (octetsToZ o + 2) /\
     option_map octetsToZ (IP_To4 (net_IPv4 192 168 0 1)) = Some (octetsToZ o + 1)).
Proof.
  split; [vm_compute; reflexivity|].
  apply (shakeHands_success_addresses SpecPool.t SpecPool.Reserve SpecPool.Next
           specFetchIPv4Octets specStatusForbidden specStatusBadRequest
           specNoFreeIPs specStatusInternalError
           (serverOf "") (connOf helloPlain) specWorld).
  vm_compute. reflexivity.
Defined.

Lemma shakeHands_success_status_zero_witness :
  firstRun = (inr (net_IPv4 192 168 0 2, net_IPv4 192 168 0 1), snd firstRun) /\
  exists evs hello,
    trace (snd firstRun) = trace specWorld ++ evs /\
    sentHellos evs = [hello] /\
    Status hello = HandshakeStatus_zero /\
    forall HandshakeStatusOK : HandshakeStatus,
      Status hello = HandshakeStatusOK <-> HandshakeStatusOK = 0.
Proof.
  split; [vm_compute; reflexivity|].
  apply (shakeHands_success_status_zero SpecPool.t SpecPool.Reserve SpecPool.Next
           specFetchIPv4Octets specStatusForbidden specStatusBadRequest
           specNoFreeIPs specStatusInternalError
           (serverOf "") (connOf helloPlain) specWorld _
           (net_IPv4 192 168 0 2) (net_IPv4 192 168 0 1)).
  vm_compute. reflexivity.
Defined.

Lemma shakeHands_octet_arithmetic_witness :
  oddRun = (inr (net_IPv4 10 0 0 254, net_IPv4 10 0 0 253), snd oddRun) /\
  exists evs B o0 o1 o2 o3 hello,
    trace (snd oddRun) = trace oddWorld ++ evs /\
    nextCalls evs = [inr B] /\
    specFetchIPv4Octets B = inr (o0, o1, o2, o3) /\
    sentHellos evs = [hello] /\
    IP_To4 (net_IPv4 10 0 0 253) = Some (o0, o1, o2, (o3 + 1) mod 256) /\
    IP_To4 (net_IPv4 10 0 0 254) = Some (o0, o1, o2, (o3 + 2) mod 256) /\
    IP_To4 (TUNGateway hello) = Some (o0, o1, o2, (o3 + 3) mod 256) /\
    IP_To4 (TUNIP hello) = Some (o0, o1, o2, (o3 + 4) mod 256) /\
    (252 <= o3 <= 255 ->
     IP_To4 (TUNIP hello) = Some (o0, o1, o2, o3 + 4 - 256) /\
     option_map octetsToZ (IP_To4 (TUNIP hello))
     = Some (octetsToZ (o0, o1, o2, o3) + 4 - 256)).
Proof.
  split; [vm_compute; reflexivity|].
  apply (shakeHands_octet_arithmetic unit oddPoolReserve oddPoolNext
           specFetchIPv4Octets specStatusForbidden specStatusBadRequest
           specNoFreeIPs specStatusInternalError
           (serverOf "") (connOf helloPlain) oddWorld).
  vm_compute. reflexivity.
Defined.

Lemma shakeHands_wrong_passcode_witness :
  conn_hello (connOf helloPlain) = inr helloPlain /\
  cfg_Passcode (cfg (serverOf "secret")) <> "" /\
  Passcode helloPlain <> cfg_Passcode (cfg (serverOf "secret")) /\
  exists evs,
    trace (snd forbiddenRun) = trace specWorld ++ evs /\
    sentHellos evs
    = [{| Status := specStatusForbidden; TUNIP := []; TUNGateway := [] |}] /\
    fst forbiddenRun = inl (errors_New "got wrong passcode from client") /\
    poolCalls evs = [] /\
    ipGen (snd forbiddenRun) = ipGen specWorld.
Proof.
  assert (H1 : cfg_Passcode (cfg (serverOf "secret")) <> "")
    by (cbn; discriminate).
  assert (H2 : Passcode helloPlain <> cfg_Passcode (cfg (serverOf "secret")))
    by (cbn; discriminate).
  split; [reflexivity|]. split; [exact H1|]. split; [exact H2|].
  exact (shakeHands_wrong_passcode SpecPool.t SpecPool.Reserve SpecPool.Next
           specFetchIPv4Octets specStatusForbidden specStatusBadRequest
           specNoFreeIPs specStatusInternalError
           (serverOf "secret") (connOf helloPlain) specWorld helloPlain
           eq_refl H1 H2).
Defined.

Lemma shakeHands_failure_status_witness :
  (sentHellos (trace (snd badRequestRun))
   = [{| Status := specStatusBadRequest; TUNIP := []; TUNGateway := [] |}] /\
   nextCalls (trace (snd badRequestRun)) = []) /\
  sentHellos (trace (snd exhaustedRun))
  = [{| Status := specNoFreeIPs; TUNIP := []; TUNGateway := [] |}].
Proof.
  split.
  - destruct (shakeHands_failure_status SpecPool.t SpecPool.Reserve SpecPool.Next
                specFetchIPv4Octets specStatusForbidden specStatusBadRequest
                specNoFreeIPs specStatusInternalError
                (serverOf "") (connOf helloBadIP) specWorld)
      as (evs & Ht & Hreserve & _).
    cbn [trace specWorld app] in Ht. rewrite Ht.
    destruct (Hreserve [1; 2; 3] (errors_New "MalformedAddress"))
      as (Hsent & _ & Hnext & _).
    + rewrite <- Ht. vm_compute. left. reflexivity.
    + split; assumption.
  - destruct (shakeHands_failure_status SpecPool.t SpecPool.Reserve SpecPool.Next
                specFetchIPv4Octets specStatusForbidden specStatusBadRequest
                specNoFreeIPs specStatusInternalError
                (serverOf "") (connOf helloPlain) (mkWorld SpecPool.exhausted []))
      as (evs & Ht & _ & Hnext).
    cbn [trace app] in Ht. rewrite Ht.
    destruct (Hnext (errors_New "PoolExhausted")) as (Hsent & _).
    + rewrite <- Ht. vm_compute. left. reflexivity.
    + assumption.
Defined.

Lemma shakeHands_send_failure_no_rollback_witness :
  let evs := trace (snd goneRun) in
  let hello := {| Status := 0; TUNIP := net_IPv4 192 168 0 4;
                  TUNGateway := net_IPv4 192 168 0 3 |} in
  let err := errors_New "broken pipe" in
  nextCalls evs = [inr (net_IPv4 192 168 0 0)] /\
  sendResults evs = [(hello, Some err)] /\
  (exists e, fst goneRun = inl e) /\
  (forall o, specFetchIPv4Octets (net_IPv4 192 168 0 0) = inr o ->
     fst goneRun
     = inl (fmt_Errorf "error finishing hadnshake: error sending server hello: %w"
              [ArgErr err])) /\
  (exists g0, SpecPool.Next g0 = (ipGen (snd goneRun), inr (net_IPv4 192 168 0 0))) /\
  (exists before, poolCalls evs = before ++ [EvNext (inr (net_IPv4 192 168 0 0))]).
Proof.
  cbv zeta.
  split; [vm_compute; reflexivity|]. split; [vm_compute; reflexivity|].
  apply (shakeHands_send_failure_no_rollback SpecPool.t SpecPool.Reserve
           SpecPool.Next specFetchIPv4Octets specStatusForbidden
           specStatusBadRequest specNoFreeIPs specStatusInternalError
           (serverOf "") (connGone helloPlain) specWorld
           (trace (snd goneRun)) (net_IPv4 192 168 0 0)
           {| Status := 0; TUNIP := net_IPv4 192 168 0 4;
              TUNGateway := net_IPv4 192 168 0 3 |}
           (errors_New "broken pipe"));
    vm_compute; reflexivity.
Defined.

Lemma Serve_teardown_reverse_order_witness :
  let evs := trace (snd serveRun) in
  let s := serverOf "" in
  enableCalls evs
  = [(EnableIPv4Forwarding, None); (EnableIPv6Forwarding, None);
     (EnableIPMasquerading "eth0", None)] /\
  exists body suid rp rm r6 r4 rr,
    evs = body ++ teardownEvents s suid rp rm r6 r4 rr /\
    restoreCalls body = [] /\
    restoreCalls evs
    = [(DisableIPMasquerading (defaultNetworkInterface s), rm);
       (SetIPv6ForwardingValue (ipv6ForwardingVal s), r6);
       (SetIPv4ForwardingValue (ipv4ForwardingVal s), r4)] /\
    (forall err, rm = Some err ->
       In (EvLog Error "Error disabling IP masquerading for %s" (Some err)) evs) /\
    (forall err, r6 = Some err ->
       In (EvLog Error "Error reverting IPv6 forwarding" (Some err)) evs) /\
    (forall err, r4 = Some err ->
       In (EvLog Error "Error reverting IPv4 forwarding" (Some err)) evs).
Proof.
  cbv zeta. split; [vm_compute; reflexivity|].
  apply (Serve_teardown_reverse_order SpecPool.t osRestoreFails (serverOf "")
           lisTwo specWorld (trace (snd serveRun)));
    vm_compute; reflexivity.
Defined.

(** ** The further properties on concrete inputs *)

(** A handshake on a pool whose block is not an IPv4 address. *)
Local Abbreviation brokenRun :=
  (shakeHands unit oddPoolReserve brokenPoolNext specFetchIPv4Octets
     specStatusForbidden specStatusBadRequest specNoFreeIPs
     specStatusInternalError (serverOf "") (connOf helloPlain) oddWorld).

(** The handshake of a client that declares two addresses as taken. *)
Local Abbreviation takenRun :=
  (specShakeHands (serverOf "") (connOf helloTwoTaken) specWorld).

(** A whole connection on a host where all goes well, on a host that
    refuses to set up the TUN device, and with a client whose hello cannot
    be decoded. *)
Local Abbreviation connRun :=
  (specServeConn osAllFine (serverOf "") (connOf helloPlain) specWorld).

Local Abbreviation connNoTUNRun :=
  (specServeConn osSetupTUNFails (serverOf "") (connOf helloPlain) specWorld).

Local Abbreviation connGarbageRun :=
  (specServeConn osAllFine (serverOf "") connGarbage specWorld).

(** A run of [Serve] on a host that cannot switch IPv6 forwarding on, and
    a run on a host where all goes well. *)
Local Abbreviation serveNoIPv6Run :=
  (specServe osNoIPv6Forwarding (serverOf "") lisTwo specWorld).

Local Abbreviation serveFineRun :=
  (specServe osAllFine (serverOf "") lisTwo specWorld).

(** The construction of a server on [hostFine], and on a host whose IPv6
    forwarding value cannot be read. *)
Local Abbreviation newServerRun :=
  (NewServer SpecPool.t osAllFine SpecPool.fresh hostFine
     {| cfg_Passcode := "" |} specWorld).

Local Abbreviation newServerNoIPv6Run :=
  (NewServer SpecPool.t osAllFine SpecPool.fresh hostNoIPv6
     {| cfg_Passcode := "" |} specWorld).

Lemma shakeHands_unsplittable_block_witness :
  let evs := trace (snd brokenRun) in
  let err := errors_New "address is not IPv4" in
  nextCalls evs = [inr [1; 2; 3]] /\
  specFetchIPv4Octets [1; 2; 3] = inl err /\
  sentHellos evs
  = [{| Status := specStatusInternalError; TUNIP := []; TUNGateway := [] |}] /\
  fst brokenRun
  = inl (fmt_Errorf "error breaking IP into octets: %w" [ArgErr err]) /\
  (exists g0, brokenPoolNext g0 = (ipGen (snd brokenRun), inr [1; 2; 3])) /\
  (exists before, poolCalls evs = before ++ [EvNext (inr [1; 2; 3])]).
Proof.
  cbv zeta. split; [vm_compute; reflexivity|]. split; [reflexivity|].
  apply (shakeHands_unsplittable_block unit oddPoolReserve brokenPoolNext
           specFetchIPv4Octets specStatusForbidden specStatusBadRequest
           specNoFreeIPs specStatusInternalError
           (serverOf "") (connOf helloPlain) oddWorld);
    vm_compute; reflexivity.
Defined.

Lemma shakeHands_pool_gate_witness :
  let evs := trace (snd forbiddenRun) in
  (poolCalls evs = [] <-> wrongPasscode (serverOf "secret") helloPlain = true) /\
  (poolCalls evs = [] -> ipGen (snd forbiddenRun) = ipGen specWorld).
Proof.
  cbv zeta.
  apply (shakeHands_pool_gate SpecPool.t SpecPool.Reserve SpecPool.Next
           specFetchIPv4Octets specStatusForbidden specStatusBadRequest
           specNoFreeIPs specStatusInternalError
           (serverOf "secret") (connOf helloPlain) specWorld).
  vm_compute. reflexivity.
Defined.

Lemma shakeHands_addresses_need_block_witness :
  let evs := trace (snd firstRun) in
  let h := {| Status := 0; TUNIP := net_IPv4 192 168 0 4;
              TUNGateway := net_IPv4 192 168 0 3 |} in
  In h (sentHellos evs) /\
  ((TUNIP h = [] /\ TUNGateway h = [])
   \/ exists B o,
        nextCalls evs = [inr B] /\
        specFetchIPv4Octets B = inr o /\
        h = {| Status := HandshakeStatus_zero;
               TUNIP := subnetPlus o 4;
               TUNGateway := subnetPlus o 3 |}).
Proof.
  cbv zeta.
  assert (Hin : In {| Status := 0; TUNIP := net_IPv4 192 168 0 4;
                      TUNGateway := net_IPv4 192 168 0 3 |}
                  (sentHellos (trace (snd firstRun))))
    by (vm_compute; left; reflexivity).
  split; [exact Hin|].
  apply (shakeHands_addresses_need_block SpecPool.t SpecPool.Reserve
           SpecPool.Next specFetchIPv4Octets specStatusForbidden
           specStatusBadRequest specNoFreeIPs specStatusInternalError
           (serverOf "") (connOf helloPlain) specWorld
           (trace (snd firstRun))).
  - vm_compute. reflexivity.
  - exact Hin.
Defined.

Lemma shakeHands_reserves_in_order_witness :
  let evs := trace (snd takenRun) in
  (exists n, reserveCalls evs = firstn n (UnavailablePrivateIPs helloTwoTaken)) /\
  (forall r, In r (nextCalls evs) ->
     poolCalls evs
     = map (fun ip => EvReserve ip None) (UnavailablePrivateIPs helloTwoTaken)
       ++ [EvNext r]).
Proof.
  cbv zeta.
  apply (shakeHands_reserves_in_order SpecPool.t SpecPool.Reserve SpecPool.Next
           specFetchIPv4Octets specStatusForbidden specStatusBadRequest
           specNoFreeIPs specStatusInternalError
           (serverOf "") (connOf helloTwoTaken) specWorld).
  - reflexivity.
  - vm_compute. reflexivity.
Defined.

Lemma shakeHands_pool_ignores_delivery_witness :
  conn_hello (connOf helloPlain) = conn_hello (connGone helloPlain) /\
  ipGen (snd firstRun) = ipGen (snd goneRun).
Proof.
  split; [reflexivity|].
  apply (shakeHands_pool_ignores_delivery SpecPool.t SpecPool.Reserve
           SpecPool.Next specFetchIPv4Octets specStatusForbidden
           specStatusBadRequest specNoFreeIPs specStatusInternalError
           (serverOf "") (connOf helloPlain) (connGone helloPlain)
           specWorld specWorld); reflexivity.
Defined.

Lemma serveConn_closes_conn_last_witness :
  let evs := trace (snd connRun) in
  connsClosed evs = [RemoteAddr (connOf helloPlain)] /\
  exists before rc,
    evs = before ++ closeConnEvents (connOf helloPlain) rc /\
    connsClosed before = [].
Proof.
  cbv zeta.
  apply (serveConn_closes_conn_last SpecPool.t SpecPool.Reserve SpecPool.Next
           specFetchIPv4Octets specStatusForbidden specStatusBadRequest
           specNoFreeIPs specStatusInternalError "/29" 1500 osAllFine
           (serverOf "") (connOf helloPlain) specWorld).
  vm_compute. reflexivity.
Defined.

Lemma serveConn_tun_lifecycle_witness :
  let evs := trace (snd connNoTUNRun) in
  tunsClosed evs = tunsCreated evs /\ (List.length (tunsCreated evs) <= 1)%nat.
Proof.
  cbv zeta.
  apply (serveConn_tun_lifecycle SpecPool.t SpecPool.Reserve SpecPool.Next
           specFetchIPv4Octets specStatusForbidden specStatusBadRequest
           specNoFreeIPs specStatusInternalError "/29" 1500 osSetupTUNFails
           (serverOf "") (connOf helloPlain) specWorld).
  vm_compute. reflexivity.
Defined.


Lemma serveConn_failed_handshake_witness :
  let evs := trace (snd connGarbageRun) in
  let err := fmt_Errorf "error reading client hello: %w"
               [ArgErr (errors_New "unexpected EOF")] in
  fst (specShakeHands (serverOf "") connGarbage specWorld) = inl err /\
  setupCalls evs = [] /\
  tunsCreated evs = [] /\
  relayStarts evs = [] /\
  In (EvLog Error "Error negotiating with client %s" (Some err)) evs.
Proof.
  cbv zeta. split; [reflexivity|].
  apply (serveConn_failed_handshake SpecPool.t SpecPool.Reserve SpecPool.Next
           specFetchIPv4Octets specStatusForbidden specStatusBadRequest
           specNoFreeIPs specStatusInternalError "/29" 1500 osAllFine
           (serverOf "") connGarbage specWorld).
  - reflexivity.
  - vm_compute. reflexivity.
Defined.

Lemma serveConn_privileges_released_witness :
  let evs := trace (snd connRun) in
  failedReleases evs = [] /\ holdsPrivileges false evs = false.
Proof.
  cbv zeta. split; [vm_compute; reflexivity|].
  apply (serveConn_privileges_released SpecPool.t SpecPool.Reserve SpecPool.Next
           specFetchIPv4Octets specStatusForbidden specStatusBadRequest
           specNoFreeIPs specStatusInternalError "/29" 1500 osAllFine
           (serverOf "") (connOf helloPlain) specWorld);
    vm_compute; reflexivity.
Defined.

Lemma serveConn_keeps_block_witness :
  poolCalls (trace (snd connNoTUNRun)) = poolCalls (trace (snd firstRun)) /\
  ipGen (snd connNoTUNRun) = ipGen (snd firstRun).
Proof.
  apply (serveConn_keeps_block SpecPool.t SpecPool.Reserve SpecPool.Next
           specFetchIPv4Octets specStatusForbidden specStatusBadRequest
           specNoFreeIPs specStatusInternalError "/29" 1500 osSetupTUNFails
           (serverOf "") (connOf helloPlain) specWorld);
    vm_compute; reflexivity.
Defined.

Lemma Serve_rollback_mirrors_setup_witness :
  let evs := trace (snd serveNoIPv6Run) in
  map fst (restoreCalls evs) = rev (map (undoCall (serverOf "")) (enabled evs)).
Proof.
  cbv zeta.
  apply (Serve_rollback_mirrors_setup SpecPool.t osNoIPv6Forwarding
           (serverOf "") lisTwo specWorld).
  vm_compute. reflexivity.
Defined.

Lemma Serve_spawns_each_accepted_witness :
  let evs := trace (snd serveFineRun) in
  spawned evs = accepted evs /\
  accepted evs
  = if (List.length (enabled evs) =? 3)%nat then lis_conns lisTwo else [].
Proof.
  cbv zeta.
  apply (Serve_spawns_each_accepted SpecPool.t osAllFine
           (serverOf "") lisTwo specWorld).
  vm_compute. reflexivity.
Defined.


Lemma Serve_error_names_failed_step_witness :
  let evs := trace (snd serveNoIPv6Run) in
  let R := fst (fst serveNoIPv6Run) in
  serveOnce (serverOf "") = false /\
  (forall err, setupCalls evs = [inl err] ->
     R = fmt_Errorf "failed to setup system privileges: %w" [ArgErr err]) /\
  (forall err, In (EnableIPv4Forwarding, Some err) (enableCalls evs) ->
     R = fmt_Errorf "error enabling IPv4 forwarding: %w" [ArgErr err]) /\
  (forall err, In (EnableIPv6Forwarding, Some err) (enableCalls evs) ->
     R = fmt_Errorf "error enabling IPv6 forwarding: %w" [ArgErr err]) /\
  (forall ifc err, In (EnableIPMasquerading ifc, Some err) (enableCalls evs) ->
     R = fmt_Errorf "error enabling IP masquerading for %s: %w"
           [ArgStr ifc; ArgErr err]) /\
  (List.length (enabled evs) = 3%nat ->
     R = fmt_Errorf "failed to accept client connection: %w"
           [ArgErr (lis_err lisTwo)]).
Proof.
  cbv zeta. split; [reflexivity|].
  apply (Serve_error_names_failed_step SpecPool.t osNoIPv6Forwarding
           (serverOf "") lisTwo specWorld).
  - reflexivity.
  - vm_compute. reflexivity.
Defined.

Lemma Serve_then_Close_witness :
  let evs := trace (snd serveFineRun) in
  let s' := snd (fst serveFineRun) in
  let failing := fun _ : Listener => Some (errors_New "already closed") in
  let fine := fun _ : Listener => @None error in
  serveOnce (serverOf "") = false /\
  (List.length (enabled evs) = 3%nat ->
   Close failing s' = (failing lisTwo, set_lis s' None, [lisTwo]) /\
   Close fine (set_lis s' None) = (None, set_lis s' None, [])) /\
  (List.length (enabled evs) <> 3%nat ->
   lis (serverOf "") = None ->
   Close failing s' = (None, s', [])).
Proof.
  cbv zeta. split; [reflexivity|].
  apply (Serve_then_Close SpecPool.t osAllFine
           (fun _ => Some (errors_New "already closed")) (fun _ => None)
           (serverOf "") lisTwo specWorld).
  - reflexivity.
  - vm_compute. reflexivity.
Defined.

Lemma NewServer_releases_privileges_witness :
  let evs := trace (snd newServerNoIPv6Run) in
  exists r,
    setupCalls evs = [r] /\
    match r with
    | inl _ =>
        releaseCalls evs = [] /\
        fst newServerNoIPv6Run
        = inl (fmt_Errorf "failed to setup system privileges" [])
    | inr suid =>
        releaseCalls evs = [suid] /\
        exists before rr,
          evs = before ++ releaseEvents suid rr /\ releaseCalls before = []
    end.
Proof.
  cbv zeta.
  apply (NewServer_releases_privileges SpecPool.t osAllFine SpecPool.fresh
           hostNoIPv6 {| cfg_Passcode := "" |} specWorld).
  vm_compute. reflexivity.
Defined.

Lemma NewServer_Serve_restores_snapshot_witness :
  let srv := {| cfg := {| cfg_Passcode := "" |}; lis := None;
                serveOnce := false; defaultNetworkInterface := "wlan0";
                ipv4ForwardingVal := "1"; ipv6ForwardingVal := "0" |} in
  let evs := trace (snd (specServe osAllFine srv lisTwo specWorld)) in
  fst newServerRun = inr srv /\
  List.length (enabled evs) = 3%nat /\
  exists ifc v4 v6,
    host_defaultNetworkInterface hostFine = inr ifc /\
    host_ipv4ForwardingValue hostFine = inr v4 /\
    host_ipv6ForwardingValue hostFine = inr v6 /\
    enabled evs
    = [EnableIPv4Forwarding; EnableIPv6Forwarding; EnableIPMasquerading ifc] /\
    map fst (restoreCalls evs)
    = [DisableIPMasquerading ifc; SetIPv6ForwardingValue v6;
       SetIPv4ForwardingValue v4].
Proof.
  cbv zeta. split; [vm_compute; reflexivity|]. split; [vm_compute; reflexivity|].
  apply (NewServer_Serve_restores_snapshot SpecPool.t osAllFine SpecPool.fresh
           hostFine {| cfg_Passcode := "" |} specWorld specWorld
           {| cfg := {| cfg_Passcode := "" |}; lis := None;
              serveOnce := false; defaultNetworkInterface := "wlan0";
              ipv4ForwardingVal := "1"; ipv6ForwardingVal := "0" |} lisTwo);
    vm_compute; reflexivity.
Defined.
